(** * Leap hybrid samplers: a shallow embedding of
      [dwave/system/samplers/leap_hybrid_sampler.py]

    The two classes of the file, [LeapHybridSampler] (binary quadratic
    models) and [LeapHybridDQMSampler] (discrete quadratic models), are
    embedded as two modules over one object state.  Python values are a
    small JSON-like type, dictionaries are finite maps, exceptions are an
    error type, and the methods live in a state-and-exception monad whose
    state is the sampler object together with the trace of serialisation
    steps and solver calls it has made.

    Numbers are exact rationals ([Q]): rounding of IEEE doubles, NaN and
    the infinities are outside the model, and so are complex numbers.  The
    docstring's example is evaluated in binary64 arithmetic as well. *)

From Stdlib Require Import QArith Qminmax Lqa ZArith String Sorted Floats.
From stdpp Require Import base gmap strings list fin_maps.

Set Warnings "-register-all".
Local Open Scope Z_scope.

(** ** Python values, exceptions and dictionaries *)

Inductive pyval :=
  | PNone
  | PBool (b : bool)
  | PNum (q : Q)
  | PStr (s : string)
  | PList (l : list pyval)
  | PDict (d : list (string * pyval)).

Inductive message :=
  | Msg (s : string)
  | Fmt (template : string) (args : list Q).

Inductive exn :=
  | TypeError (m : message)
  | ValueError (m : message)
  | KeyError (key : string)
  | IndexError (m : message)
  | ZeroDivisionError
  | SolverError (code : Z).

Inductive result (A : Type) :=
  | Ok (a : A)
  | Raise (e : exn).
Arguments Ok {A} a.
Arguments Raise {A} e.

Abbreviation dict := (gmap string pyval).

(** [d[key]] *)
Definition getitem (d : dict) (key : string) : result pyval :=
  match d !! key with
  | Some v => Ok v
  | None => Raise (KeyError key)
  end.

(** [d.get(key)] *)
Definition get (d : dict) (key : string) : pyval :=
  match d !! key with
  | Some v => v
  | None => PNone
  end.

(** [d.setdefault(key, default)]: the value now stored under [key], and the
    dictionary after the call. *)
Definition setdefault (key : string) (default : pyval) (d : dict) : pyval * dict :=
  match d !! key with
  | Some v => (v, d)
  | None => (default, <[key := default]> d)
  end.

(** [v == s] for a string literal [s] *)
Definition eq_str (v : pyval) (s : string) : bool :=
  match v with
  | PStr s' => bool_decide (s' = s)
  | _ => false
  end.

(** [isinstance(v, numbers.Number)] *)
Definition is_Number (v : pyval) : bool :=
  match v with
  | PBool _ | PNum _ => true
  | _ => false
  end.

(** The numeric value of a number; [True] is 1 and [False] is 0. *)
Definition num_value (v : pyval) : option Q :=
  match v with
  | PBool b => Some (if b then 1%Q else 0%Q)
  | PNum q => Some q
  | _ => None
  end.

Definition Qltb (a b : Q) : bool := negb (Qle_bool b a).

(** [v < m] for a number [v] *)
Definition py_lt (v : pyval) (m : Q) : bool :=
  match num_value v with
  | Some t => Qltb t m
  | None => false
  end.

(** [iter(v)] run to the end *)
Definition py_iter (v : pyval) : result (list pyval) :=
  match v with
  | PList l => Ok l
  | PDict d => Ok ((fun kv => PStr (fst kv)) <$> d)
  | PStr s => Ok ((fun c => PStr (String c EmptyString)) <$> list_ascii_of_string s)
  | _ => Raise (TypeError (Msg "object is not iterable"))
  end.

Fixpoint mapM_result {A B : Type} (f : A -> result B) (l : list A) : result (list B) :=
  match l with
  | [] => Ok []
  | a :: l' =>
      match f a with
      | Raise e => Raise e
      | Ok b =>
          match mapM_result f l' with
          | Raise e => Raise e
          | Ok bs => Ok (b :: bs)
          end
      end
  end.

(** [zip] applied to the unpacked [rows]: the columns of [rows], cut at
    the shortest row. *)
Definition zip_star (rows : list (list pyval)) : list (list pyval) :=
  match rows with
  | [] => []
  | r :: rs =>
      let n := foldr (fun r' m => Nat.min (length r') m) (length r) rs in
      (fun i => (fun r' => nth i r' PNone) <$> rows) <$> seq 0 n
  end.

(** ** numpy *)

Module np.

(** Conversion of a sequence to an array of doubles.  Only numbers are
    converted; numpy's own conversions of other entries (numeric strings,
    nested sequences) are not modelled and are reported as a cast error. *)
Definition asarray (l : list pyval) : result (list Q) :=
  mapM_result
    (fun v =>
       match num_value v with
       | Some q => Ok q
       | None => Raise (TypeError (Msg "Cannot cast array data to dtype('float64')"))
       end) l.

(** [np.array(v)] as a two-dimensional array: a list of rows of one
    common length; anything else has no second axis to index.  The array
    has one element type: if some entry is not a number, no entry of the
    array is one. *)
Definition array (v : pyval) : result (list (list pyval)) :=
  match v with
  | PList (PList r :: rows) =>
      match
        mapM_result
          (fun row =>
             match row with
             | PList r' =>
                 if bool_decide (length r' = length r) then Ok r'
                 else Raise (IndexError (Msg "too many indices for array"))
             | _ => Raise (IndexError (Msg "too many indices for array"))
             end) (PList r :: rows)
      with
      | Raise e => Raise e
      | Ok a =>
          if forallb (forallb is_Number) a then Ok a
          else Ok (map (map (fun _ => PStr "object")) a)
      end
  | _ => Raise (IndexError (Msg "too many indices for array"))
  end.

(** [a[:, i]] *)
Definition column (a : list (list pyval)) (i : nat) : result (list pyval) :=
  mapM_result
    (fun r =>
       match r !! i with
       | Some v => Ok v
       | None => Raise (IndexError (Msg "index is out of bounds for axis 1"))
       end) a.

(** The scan of [linear_search] in numpy's [arr_interp]: [(x0, y0)] is the
    sample point at index [j], [rest] the points after it; the scan moves
    on while the next abscissa is at most [x]. *)
Fixpoint interp_from (x x0 y0 : Q) (rest : list (Q * Q)) : Q :=
  match rest with
  | [] => y0
  | (x1, y1) :: rest' =>
      if Qle_bool x1 x then interp_from x x1 y1 rest'
      else if Qeq_bool x0 x then y0
      else
        let slope := ((y1 - y0) / (x1 - x0))%Q in
        (slope * (x - x0) + y0)%Q
  end.

(** The interpolation step of [arr_interp] in binary64 arithmetic. *)
Definition interp_segment_double (x x0 y0 x1 y1 : float) : float :=
  let slope := ((y1 - y0) / (x1 - x0))%float in
  (slope * (x - x0) + y0)%float.

(** [np.interp(x, xp, fp)] for a scalar [x], with the default [left] and
    [right] (the first and the last ordinate). *)
Definition interp (x : Q) (xp fp : list pyval) : result Q :=
  match asarray xp, asarray fp with
  | Raise e, _ | Ok _, Raise e => Raise e
  | Ok xp, Ok fp =>
      if bool_decide (length xp = 0%nat) then
        Raise (ValueError (Msg "array of sample points is empty"))
      else if bool_decide (length fp ≠ length xp) then
        Raise (ValueError (Msg "fp and xp are not of the same length."))
      else
        match combine xp fp with
        | [] => Raise (ValueError (Msg "array of sample points is empty"))
        | (x0, y0) :: rest =>
            let '(xn, yn) := List.last rest (x0, y0) in
            if Qltb xn x then Ok yn
            else if Qltb x x0 then Ok y0
            else Ok (interp_from x x0 y0 rest)
        end
  end.

End np.

(** ** The quadratic models and the sample set (dimod) *)

(** Variable labels: integers or strings. *)
Inductive label :=
  | LInt (i : Z)
  | LStr (s : string).

#[global] Instance label_eq_dec : EqDecision label.
Proof. solve_decision. Defined.

#[global] Instance label_countable : Countable label.
Proof.
  refine (inj_countable'
            (fun l => match l with LInt i => inl i | LStr s => inr s end)
            (fun x => match x with inl i => LInt i | inr s => LStr s end) _).
  intros []; reflexivity.
Defined.

Inductive vartype := SPIN | BINARY.

(** A binary quadratic model in one of the ordered, file-view compatible
    classes: the variables in index order, and the biases by index. *)
Record BQM := {
  bqm_variables : list label;
  bqm_linear : list Q;
  bqm_quadratic : list (nat * nat * Q);
  bqm_offset : Q;
  bqm_vartype : vartype
}.

(** [bqm.num_variables] *)
Definition bqm_num_variables (bqm : BQM) : Z := Z.of_nat (length (bqm_variables bqm)).

(** [dimod.as_bqm(bqm, cls=[AdjArrayBQM, AdjMapBQM, AdjVectorBQM])]: the
    model is already of such a class. *)
Definition as_bqm (bqm : BQM) : BQM := bqm.

(** What a [FileView] of a model reads as: the labels are left out when
    [ignore_labels] is set. *)
Record FileView := {
  fv_version : Z;
  fv_labels : option (list label);
  fv_linear : list Q;
  fv_quadratic : list (nat * nat * Q);
  fv_offset : Q;
  fv_vartype : vartype
}.

Definition open_FileView (bqm : BQM) (version : Z) (ignore_labels : bool) : FileView :=
  {| fv_version := version;
     fv_labels := if ignore_labels then None else Some (bqm_variables bqm);
     fv_linear := bqm_linear bqm;
     fv_quadratic := bqm_quadratic bqm;
     fv_offset := bqm_offset bqm;
     fv_vartype := bqm_vartype bqm |}.

(** A discrete quadratic model, seen through the methods the sampler calls. *)
Record DQM := {
  dqm_variables : list label;
  dqm_num_variable_interactions : Z;
  dqm_num_cases : Z;
  dqm_biases : list Q
}.

(** [dqm.num_variables()] *)
Definition dqm_num_variables (dqm : DQM) : Z := Z.of_nat (length (dqm_variables dqm)).

(** The file of [dqm.to_file(compressed=.., ignore_labels=..)]. *)
Record DQMFile := {
  df_compressed : bool;
  df_labels : option (list label);
  df_num_variable_interactions : Z;
  df_num_cases : Z;
  df_biases : list Q
}.

Definition to_file (dqm : DQM) (compressed ignore_labels : bool) : DQMFile :=
  {| df_compressed := compressed;
     df_labels := if ignore_labels then None else Some (dqm_variables dqm);
     df_num_variable_interactions := dqm_num_variable_interactions dqm;
     df_num_cases := dqm_num_cases dqm;
     df_biases := dqm_biases dqm |}.

(** A sample set: the variable labels in column order and the records
    (assignment, energy, number of occurrences). *)
Record SampleSet := {
  ss_variables : list label;
  ss_records : list (list Z * Q * Z)
}.

(** [dict(enumerate(vars))] *)
Definition enumerate_dict (vars : list label) : gmap label label :=
  list_to_map (reverse (imap (fun i v => (LInt (Z.of_nat i), v)) vars)).

(** [sampleset.relabel_variables(mapping)]: a label that is a target of
    the mapping may stay in the sample set only if it is relabelled too;
    then every variable in the mapping is renamed, all at once. *)
Definition relabel_variables (sampleset : SampleSet) (mapping : gmap label label)
  : result SampleSet :=
  let old_labels : gset label := dom mapping in
  let new_labels : gset label := map_img mapping in
  if bool_decide (Exists (fun v => v ∈ new_labels ∧ v ∉ old_labels) (ss_variables sampleset))
  then Raise (ValueError (Msg "A variable cannot be relabeled without also relabeling the existing variable of the same name"))
  else Ok {| ss_variables := (fun v => default v (mapping !! v)) <$> ss_variables sampleset;
             ss_records := ss_records sampleset |}.

(** ** The cloud client: solver, client, and the sampler object *)

(** A solver of the cloud client.  The calls that return a future are
    modelled by their resolved outcome ([.result()], [.sampleset]). *)
Record Solver := {
  solver_properties : dict;
  solver_supported_problem_types : list string;
  solver_upload_bqm : FileView -> result string;
  solver_sample_bqm : string -> dict -> result SampleSet;
  solver_sample_dqm : DQMFile -> dict -> result SampleSet
}.

Record Client := {
  client_get_solver : result Solver
}.

(** The [solver] argument of the constructors. *)
Inductive selector :=
  | SelNone
  | SelMapping (d : dict)
  | SelName (name : string).

(** Serialisation steps and solver calls, in the order they happen. *)
Inductive event :=
  | EvFileView (version : Z) (ignore_labels : bool)
  | EvUploadBqm (fv : FileView)
  | EvSampleBqm (problem_id : string) (params : dict)
  | EvToFile (compressed ignore_labels : bool)
  | EvSampleDqm (f : DQMFile) (params : dict).

(** The sampler object ([self]), the number of times its solver's
    [properties] attribute has been read, and the trace of its serialisation
    steps and solver calls. *)
Record state := {
  self_client : Client;
  self_solver : Solver;
  self__properties : option dict;
  self__parameters : option (gmap string (list string));
  reads : nat;
  trace : list event
}.

Definition M (A : Type) : Type := state -> result A * state.

#[global] Instance M_ret : MRet M := fun A a st => (Ok a, st).
#[global] Instance M_bind : MBind M := fun A B f m st =>
  match m st with
  | (Ok a, st') => f a st'
  | (Raise e, st') => (Raise e, st')
  end.

Definition raise {A : Type} (e : exn) : M A := fun st => (Raise e, st).
Definition lift {A : Type} (r : result A) : M A := fun st => (r, st).
(** The object after the events [evs] are added to its trace. *)
Definition log (evs : list event) (self : state) : state :=
  {| self_client := self_client self; self_solver := self_solver self;
     self__properties := self__properties self;
     self__parameters := self__parameters self;
     reads := reads self; trace := trace self ++ evs |}.

Definition emit (e : event) : M unit := fun self => (Ok tt, log [e] self).

(** [self.solver.upload_bqm(fv).result()] *)
Definition upload_bqm (fv : FileView) : M string := fun self =>
  match emit (EvUploadBqm fv) self with
  | (_, self') => (solver_upload_bqm (self_solver self) fv, self')
  end.

(** [self.solver.sample_bqm(problem_id, **params).sampleset] *)
Definition sample_bqm (problem_id : string) (params : dict) : M SampleSet := fun self =>
  match emit (EvSampleBqm problem_id params) self with
  | (_, self') => (solver_sample_bqm (self_solver self) problem_id params, self')
  end.

(** [self.solver.sample_dqm(f, **params).sampleset] *)
Definition solver_sample_dqm_call (f : DQMFile) (params : dict) : M SampleSet := fun self =>
  match emit (EvSampleDqm f params) self with
  | (_, self') => (solver_sample_dqm (self_solver self) f params, self')
  end.

(** The keys of a dictionary comprehension over the solver's parameter
    table.  Parameter names are strings; a name of another kind is not
    modelled. *)
Definition param_key (v : pyval) : result string :=
  match v with
  | PStr s => Ok s
  | PList _ | PDict _ => Raise (TypeError (Msg "unhashable type"))
  | _ => Raise (TypeError (Msg "parameter name is not a string"))
  end.

(** Python's [max([a, b])]: the first of the largest items. *)
Definition py_max (a b : Q) : Q := if Qltb a b then b else a.

Definition set__properties (p : dict) : M unit := fun self =>
  (Ok tt, {| self_client := self_client self; self_solver := self_solver self;
             self__properties := Some p; self__parameters := self__parameters self;
             reads := reads self; trace := trace self |}).

Definition set__parameters (p : gmap string (list string)) : M unit := fun self =>
  (Ok tt, {| self_client := self_client self; self_solver := self_solver self;
             self__properties := self__properties self; self__parameters := Some p;
             reads := reads self; trace := trace self |}).

(** Reading [self.solver.properties] (and copying it). *)
Definition read_solver_properties : M dict := fun self =>
  (Ok (solver_properties (self_solver self)),
   {| self_client := self_client self; self_solver := self_solver self;
      self__properties := self__properties self; self__parameters := self__parameters self;
      reads := S (reads self); trace := trace self |}).

(** The object as [__init__] has it once [self.client] and [self.solver]
    are set. *)
Definition new_self (c : Client) (s : Solver) : state :=
  {| self_client := c; self_solver := s; self__properties := None; self__parameters := None;
     reads := 0; trace := [] |}.

(** ** class LeapHybridSampler *)

Module LeapHybridSampler.

Definition _INTEGER_BQM_SIZE_THRESHOLD : Z := 10000.

(** The [properties] attribute: the cached copy if there is one, else a
    copy of the solver's properties, cached. *)
Definition properties : M dict := fun self =>
  match self__properties self with
  | Some p => (Ok p, self)
  | None =>
      (properties ← read_solver_properties;
       set__properties properties;;
       mret properties) self
  end.

(** The [parameters] attribute: the cached table if there is one, else
    the table built from [properties['parameters']], cached. *)
Definition parameters : M (gmap string (list string)) := fun self =>
  match self__parameters self with
  | Some p => (Ok p, self)
  | None =>
      (props ← properties;
       table ← lift (getitem props "parameters");
       params ← lift (py_iter table);
       params ← lift (mapM_result param_key params);
       let parameters : gmap string (list string) :=
         list_to_map (reverse ((fun param => (param, ["parameters"])) <$> params)) in
       set__parameters parameters;;
       mret parameters) self
  end.

Section init.

(** [Client.from_config(solver=.., connection_close=.., **config)] *)
Variable from_config : selector -> bool -> dict -> result Client.

(** The constructor.  The second component is the object the name
    [solver] refers to when the constructor ends, by return or by
    exception: for a caller who passed a mapping, the caller's own
    mapping. *)
Definition __init__ (solver : selector) (connection_close : bool) (config : dict)
  : result state * selector :=
  let config := snd (setdefault "client" (PStr "hybrid") config) in
  let solver := match solver with SelNone => SelMapping ∅ | _ => solver end in
  let '(checked, solver) :=
    match solver with
    | SelMapping d =>
        let '(category, d) := setdefault "category" (PStr "hybrid") d in
        if negb (eq_str category "hybrid") then
          (Raise (ValueError (Msg "the only 'category' this sampler supports is 'hybrid'")),
           SelMapping d)
        else
          let '(problem_type, d) :=
            setdefault "supported_problem_types__contains" (PStr "bqm") d in
          if negb (eq_str problem_type "bqm") then
            (Raise (ValueError (Msg "the only problem type this sampler supports is 'bqm'")),
             SelMapping d)
          else
            let '(_, d) := setdefault "order_by" (PStr "-version") d in
            (Ok tt, SelMapping d)
    | _ => (Ok tt, solver)
    end in
  match checked with
  | Raise e => (Raise e, solver)
  | Ok _ =>
      match from_config solver connection_close config with
      | Raise e => (Raise e, solver)
      | Ok c =>
          match client_get_solver c with
          | Raise e => (Raise e, solver)
          | Ok s =>
              match properties (new_self c s) with
              | (Raise e, _) => (Raise e, solver)
              | (Ok props, self) =>
                  if negb (eq_str (get props "category") "hybrid") then
                    (Raise (ValueError (Msg "selected solver is not a hybrid solver.")),
                     solver)
                  else if negb (bool_decide
                                  ("bqm" ∈ solver_supported_problem_types (self_solver self)))
                  then
                    (Raise (ValueError (Msg "selected solver does not support the 'bqm' problem type.")),
                     solver)
                  else (Ok self, solver)
              end
          end
      end
  end.

End init.

(** Sample from the given BQM: upload its labelled file view, then ask
    for samples of the uploaded problem. *)
Definition _sample (bqm : BQM) (kwargs : dict) : M SampleSet :=
  let bqm := as_bqm bqm in
  let fv := open_FileView bqm 2 false in
  emit (EvFileView 2 false);;
  sapi_problem_id ← upload_bqm fv;
  sample_bqm sapi_problem_id kwargs.

(** Sample from the unlabelled version of the BQM, then apply the labels
    to the returned sample set. *)
Definition _sample_large (bqm : BQM) (kwargs : dict) : M SampleSet :=
  let bqm := as_bqm bqm in
  let fv := open_FileView bqm 2 true in
  emit (EvFileView 2 true);;
  sapi_problem_id ← upload_bqm fv;
  sampleset ← sample_bqm sapi_problem_id kwargs;
  let mapping := enumerate_dict (bqm_variables bqm) in
  lift (relabel_variables sampleset mapping).

(** The first lines of [sample]: the minimum time limit for a model of
    [num_vars] variables, from the solver's curve. *)
Definition sample_min_time_limit (num_vars : Z) : M Q :=
  props ← properties;
  curve ← lift (getitem props "minimum_time_limit");
  rows ← lift (py_iter curve);
  rows ← lift (mapM_result py_iter rows);
  match zip_star rows with
  | [xx; yy] => lift (np.interp (inject_Z num_vars) xx yy)
  | [] | [_] => raise (ValueError (Msg "not enough values to unpack (expected 2)"))
  | _ => raise (ValueError (Msg "too many values to unpack (expected 2)"))
  end.

(** [sample(bqm, time_limit=None, **kwargs)]; an omitted time limit is
    [PNone]. *)
Definition sample (bqm : BQM) (time_limit : pyval) (kwargs : dict) : M SampleSet :=
  let num_vars := bqm_num_variables bqm in
  min_time_limit ← sample_min_time_limit num_vars;
  let time_limit :=
    match time_limit with
    | PNone => PNum min_time_limit
    | _ => time_limit
    end in
  if negb (is_Number time_limit) then
    raise (TypeError (Msg "time limit must be a number"))
  else if py_lt time_limit min_time_limit then
    raise (ValueError (Fmt "time limit for problem size {} must be at least {}"
                           [inject_Z num_vars; min_time_limit]))
  else if _INTEGER_BQM_SIZE_THRESHOLD <? num_vars then
    _sample_large bqm (<["time_limit" := time_limit]> kwargs)
  else
    _sample bqm (<["time_limit" := time_limit]> kwargs).

End LeapHybridSampler.

(** ** class LeapHybridDQMSampler *)

Module LeapHybridDQMSampler.

(** The [properties] attribute: the cached copy if there is one, else a
    copy of the solver's properties, cached. *)
Definition properties : M dict := fun self =>
  match self__properties self with
  | Some p => (Ok p, self)
  | None =>
      (properties ← read_solver_properties;
       set__properties properties;;
       mret properties) self
  end.

(** The [parameters] attribute: the cached table if there is one, else
    the table built from [properties['parameters']], cached. *)
Definition parameters : M (gmap string (list string)) := fun self =>
  match self__parameters self with
  | Some p => (Ok p, self)
  | None =>
      (props ← properties;
       table ← lift (getitem props "parameters");
       params ← lift (py_iter table);
       params ← lift (mapM_result param_key params);
       let parameters : gmap string (list string) :=
         list_to_map (reverse ((fun param => (param, ["parameters"])) <$> params)) in
       set__parameters parameters;;
       mret parameters) self
  end.

Section init.

(** [Client.from_config(solver=.., connection_close=.., **config)] *)
Variable from_config : selector -> bool -> dict -> result Client.

(** The constructor.  The second component is the object the name
    [solver] refers to when the constructor ends, by return or by
    exception: for a caller who passed a mapping, the caller's own
    mapping. *)
Definition __init__ (solver : selector) (connection_close : bool) (config : dict)
  : result state * selector :=
  let config := snd (setdefault "client" (PStr "hybrid") config) in
  let solver := match solver with SelNone => SelMapping ∅ | _ => solver end in
  let '(checked, solver) :=
    match solver with
    | SelMapping d =>
        let '(category, d) := setdefault "category" (PStr "hybrid") d in
        if negb (eq_str category "hybrid") then
          (Raise (ValueError (Msg "the only 'category' this sampler supports is 'hybrid'")),
           SelMapping d)
        else
          let '(problem_type, d) :=
            setdefault "supported_problem_types__contains" (PStr "dqm") d in
          if negb (eq_str problem_type "dqm") then
            (Raise (ValueError (Msg "the only problem type this sampler supports is 'dqm'")),
             SelMapping d)
          else
            let '(_, d) := setdefault "order_by" (PStr "-version") d in
            (Ok tt, SelMapping d)
    | _ => (Ok tt, solver)
    end in
  match checked with
  | Raise e => (Raise e, solver)
  | Ok _ =>
      match from_config solver connection_close config with
      | Raise e => (Raise e, solver)
      | Ok c =>
          match client_get_solver c with
          | Raise e => (Raise e, solver)
          | Ok s =>
              match properties (new_self c s) with
              | (Raise e, _) => (Raise e, solver)
              | (Ok props, self) =>
                  if negb (eq_str (get props "category") "hybrid") then
                    (Raise (ValueError (Msg "selected solver is not a hybrid solver.")),
                     solver)
                  else if negb (bool_decide
                                  ("dqm" ∈ solver_supported_problem_types (self_solver self)))
                  then
                    (Raise (ValueError (Msg "selected solver does not support the 'dqm' problem type.")),
                     solver)
                  else (Ok self, solver)
              end
          end
      end
  end.

End init.

(** The minimum [time_limit] accepted for the given problem.  The
    division is Python's true division: it raises when there is no
    variable. *)
Definition min_time_limit (dqm : DQM) : M Q :=
  ec ← (if bool_decide (dqm_num_variables dqm = 0) then raise ZeroDivisionError
        else mret (inject_Z (dqm_num_variable_interactions dqm * dqm_num_cases dqm)
                   / inject_Z (dqm_num_variables dqm))%Q);
  props ← properties;
  curve ← lift (getitem props "minimum_time_limit");
  limits ← lift (np.array curve);
  xp ← lift (np.column limits 0);
  fp ← lift (np.column limits 1);
  t ← lift (np.interp ec xp fp);
  mret (py_max 5 t).

(** [sample_dqm(dqm, time_limit=None, compressed=False, **kwargs)] *)
Definition sample_dqm (dqm : DQM) (time_limit : pyval) (compressed : bool) (kwargs : dict)
  : M SampleSet :=
  time_limit ← match time_limit with
               | PNone => t ← min_time_limit dqm; mret (PNum t)
               | _ => mret time_limit
               end;
  let f := to_file dqm compressed true in
  emit (EvToFile compressed true);;
  sampleset ← solver_sample_dqm_call f {["time_limit" := time_limit]};
  lift (relabel_variables sampleset (enumerate_dict (dqm_variables dqm))).

End LeapHybridDQMSampler.

(** ** Definitions used to state the properties *)

(** A curve of (size, seconds) pairs as the solver's properties hold it: a
    list of two-element lists of numbers. *)
Definition curve_val (c : list (Q * Q)) : pyval :=
  PList ((fun p => PList [PNum (fst p); PNum (snd p)]) <$> c).

(** What [np.interp] computes on the two columns of a curve. *)
Definition curve_interp (x : Q) (c : list (Q * Q)) : Q :=
  match c with
  | [] => 0%Q
  | (x0, y0) :: rest =>
      let '(xn, yn) := List.last rest (x0, y0) in
      if Qltb xn x then yn
      else if Qltb x x0 then y0
      else np.interp_from x x0 y0 rest
  end.

(** The sizes of a curve are strictly increasing. *)
Definition increasing (c : list (Q * Q)) : Prop := StronglySorted Qlt (fst <$> c).

(** The density of a discrete quadratic model. *)
Definition density (dqm : DQM) : Q :=
  (inject_Z (dqm_num_variable_interactions dqm * dqm_num_cases dqm)
   / inject_Z (dqm_num_variables dqm))%Q.

(** The integer labels [0, 1, .., n-1] of an unlabelled model. *)
Definition indices (n : nat) : list label := (fun i => LInt (Z.of_nat i)) <$> seq 0 n.

(** The rows of a curve, as sequences of Python values. *)
Definition curve_rows (c : list (Q * Q)) : list (list pyval) :=
  (fun p => [PNum (fst p); PNum (snd p)]) <$> c.

(** The docstring's curve. *)
Definition docstring_curve : list (Q * Q) := [(1, 0.1); (100, 10.0); (1000, 20.0)]%Q.

(** The defaults the constructors put into a filter. *)
Definition filter_defaults (kind : string) : dict :=
  {[ "category" := PStr "hybrid";
     "supported_problem_types__contains" := PStr kind;
     "order_by" := PStr "-version" ]}.

(** No entry of the caller's filter contradicts the sampler's kind. *)
Definition accepts (kind : string) (d : dict) : bool :=
  match d !! "category" with
  | Some v => eq_str v "hybrid"
  | None => true
  end &&
  match d !! "supported_problem_types__contains" with
  | Some v => eq_str v kind
  | None => true
  end.

(** The selector handed to [Client.from_config], when the filter is accepted. *)
Definition selector_passed (kind : string) (sel : selector) : option selector :=
  match sel with
  | SelNone => Some (SelMapping (filter_defaults kind))
  | SelMapping d =>
      if accepts kind d then Some (SelMapping (d ∪ filter_defaults kind)) else None
  | SelName name => Some (SelName name)
  end.

(** The client configuration with its default. *)
Definition with_client_default (config : dict) : dict :=
  snd (setdefault "client" (PStr "hybrid") config).

(** The object a constructor returns for client [c] and solver [s]: the
    properties are already cached. *)
Definition constructed (c : Client) (s : Solver) : state :=
  {| self_client := c; self_solver := s;
     self__properties := Some (solver_properties s); self__parameters := None;
     reads := 1; trace := [] |}.

(** What a constructor of kind [kind] does once the filter is accepted:
    connect, resolve the solver, and validate it. *)
Definition resolve (kind : string) (from_config : selector -> bool -> dict -> result Client)
    (sel' : selector) (connection_close : bool) (config : dict) : result state * selector :=
  match from_config sel' connection_close (with_client_default config) with
  | Raise e => (Raise e, sel')
  | Ok c =>
      match client_get_solver c with
      | Raise e => (Raise e, sel')
      | Ok s =>
          if negb (eq_str (get (solver_properties s) "category") "hybrid") then
            (Raise (ValueError (Msg "selected solver is not a hybrid solver.")), sel')
          else if negb (bool_decide (kind ∈ solver_supported_problem_types s)) then
            (Raise (ValueError (Msg ("selected solver does not support the '" ++ kind
                                     ++ "' problem type."))), sel')
          else (Ok (constructed c s), sel')
      end
  end.

(** The caller's category, if any, is 'hybrid'. *)
Definition category_accepted (d : dict) : bool :=
  match d !! "category" with
  | Some v => eq_str v "hybrid"
  | None => true
  end.

(** The type of the two constructors. *)
Abbreviation constructor :=
  ((selector -> bool -> dict -> result Client) -> selector -> bool -> dict
   -> result state * selector).

(** Constructor validation for a sampler of kind [kind]:
    - an accepted filter reaches [Client.from_config] with the defaults
      added for the keys the caller left out, the caller's entries kept,
      and the constructor consults the connection on that filter only;
    - a caller-supplied category other than 'hybrid' or problem type
      other than [kind] is a [ValueError], whatever the connection;
    - once a solver is resolved, construction fails with a [ValueError]
      when its category is not 'hybrid' or it does not support [kind],
      and succeeds otherwise. *)
Definition constructor_validates (kind : string) (init : constructor) : Prop :=
  forall sel cc config,
    (forall d, sel = SelMapping d -> accepts kind d = true ->
       (forall k, (d ∪ filter_defaults kind) !! k
                  = match d !! k with
                    | Some v => Some v
                    | None => filter_defaults kind !! k
                    end) /\
       (forall fc, snd (init fc sel cc config) = SelMapping (d ∪ filter_defaults kind)) /\
       (forall fc1 fc2,
           fc1 (SelMapping (d ∪ filter_defaults kind)) cc (with_client_default config)
           = fc2 (SelMapping (d ∪ filter_defaults kind)) cc (with_client_default config) ->
           init fc1 sel cc config = init fc2 sel cc config)) /\
    (forall d, sel = SelMapping d ->
       (exists v, d !! "category" = Some v /\ eq_str v "hybrid" = false) \/
       (exists v, d !! "supported_problem_types__contains" = Some v /\ eq_str v kind = false) ->
       exists msg, forall fc, fst (init fc sel cc config) = Raise (ValueError (Msg msg))) /\
    (forall fc sel' c s,
       selector_passed kind sel = Some sel' ->
       fc sel' cc (with_client_default config) = Ok c ->
       client_get_solver c = Ok s ->
       (eq_str (get (solver_properties s) "category") "hybrid" = false \/
        kind ∉ solver_supported_problem_types s ->
        exists msg, init fc sel cc config = (Raise (ValueError (Msg msg)), sel')) /\
       (eq_str (get (solver_properties s) "category") "hybrid" = true ->
        kind ∈ solver_supported_problem_types s ->
        init fc sel cc config = (Ok (constructed c s), sel'))).

(** What a constructor of kind [kind] leaves in a mapping passed as the
    solver argument, whether it returns or raises: the caller's entries are
    never changed; when the filter checks pass, all three defaults are
    there for the keys the caller had not set; when the category check
    raises, nothing was added; when the problem-type check raises, only
    the category default was. *)
Definition filter_mutation (kind : string) (init : constructor) : Prop :=
  forall fc (d : dict) cc config,
    exists d' : dict,
      snd (init fc (SelMapping d) cc config) = SelMapping d' /\
      (forall k v, d !! k = Some v -> d' !! k = Some v) /\
      (accepts kind d = true ->
       d' = d ∪ filter_defaults kind /\
       is_Some (d' !! "category") /\
       is_Some (d' !! "supported_problem_types__contains") /\
       is_Some (d' !! "order_by")) /\
      (category_accepted d = false ->
       d' = d /\ exists msg, fst (init fc (SelMapping d) cc config) = Raise (ValueError (Msg msg))) /\
      (category_accepted d = true -> accepts kind d = false ->
       d' = d ∪ {["category" := PStr "hybrid"]} /\
       d' !! "order_by" = d !! "order_by" /\
       exists msg, fst (init fc (SelMapping d) cc config) = Raise (ValueError (Msg msg))).

(** A connection that is never reached. *)
Definition no_connection : selector -> bool -> dict -> result Client :=
  fun _ _ _ => Raise (SolverError 0).

(** The parameter table a property mapping gives rise to: every keyword of
    its 'parameters' entry, mapped to the provenance list. *)
Definition parameters_of (props : dict) : result (gmap string (list string)) :=
  match getitem props "parameters" with
  | Raise e => Raise e
  | Ok table =>
      match py_iter table with
      | Raise e => Raise e
      | Ok params =>
          match mapM_result param_key params with
          | Raise e => Raise e
          | Ok keys => Ok (list_to_map (reverse ((fun k => (k, ["parameters"%string])) <$> keys)))
          end
      end
  end.

(** The sampler after its solver object has been changed from outside. *)
Definition replace_solver (s : Solver) (self : state) : state :=
  {| self_client := self_client self; self_solver := s;
     self__properties := self__properties self;
     self__parameters := self__parameters self;
     reads := reads self; trace := trace self |}.

(** What happens to a sampler during its lifetime. *)
Inductive access :=
  | GetProperties
  | GetParameters
  | CallSample (bqm : BQM) (time_limit : pyval) (kwargs : dict)
  | CallSampleDqm (dqm : DQM) (time_limit : pyval) (compressed : bool) (kwargs : dict)
  | SolverChanges (s : Solver).

Inductive outcome :=
  | GotProperties (r : result dict)
  | GotParameters (r : result (gmap string (list string)))
  | Sampled (r : result SampleSet)
  | Changed.

Definition access_step (a : access) (self : state) : outcome * state :=
  match a with
  | GetProperties =>
      let '(r, self') := LeapHybridSampler.properties self in (GotProperties r, self')
  | GetParameters =>
      let '(r, self') := LeapHybridSampler.parameters self in (GotParameters r, self')
  | CallSample bqm time_limit kwargs =>
      let '(r, self') := LeapHybridSampler.sample bqm time_limit kwargs self in
      (Sampled r, self')
  | CallSampleDqm dqm time_limit compressed kwargs =>
      let '(r, self') := LeapHybridDQMSampler.sample_dqm dqm time_limit compressed kwargs self in
      (Sampled r, self')
  | SolverChanges s => (Changed, replace_solver s self)
  end.

Fixpoint accesses (l : list access) (self : state) : list outcome * state :=
  match l with
  | [] => ([], self)
  | a :: l' =>
      let '(o, self') := access_step a self in
      let '(os, self'') := accesses l' self' in
      (o :: os, self'')
  end.

(** The caches agree with the count of reads: the solver's properties
    were read once if they are cached and never otherwise, and cached
    parameters were made from the cached properties. *)
Definition cached_once (self : state) : Prop :=
  match self__properties self with
  | Some _ => reads self = 1%nat
  | None => reads self = 0%nat
  end /\
  match self__parameters self with
  | Some q => exists p, self__properties self = Some p /\ parameters_of p = Ok q
  | None => True
  end.

(** An outcome that shows the property mapping [p], or nothing of it. *)
Definition shows (p : dict) (o : outcome) : Prop :=
  match o with
  | GotProperties r => r = Ok p
  | GotParameters r => r = parameters_of p
  | _ => True
  end.

(** The properties of a hybrid solver with the docstring's curve. *)
Definition demo_properties : dict :=
  {[ "category" := PStr "hybrid";
     "minimum_time_limit" := curve_val docstring_curve;
     "parameters" := PDict [("time_limit"%string, PStr "seconds")] ]}.

(** One sample over the integer labels of an [n]-variable problem. *)
Definition demo_sampleset (n : nat) : SampleSet :=
  {| ss_variables := indices n; ss_records := [(replicate n 0, 0%Q, 1)] |}.

(** A solver that accepts every problem and answers with [demo_sampleset n]. *)
Definition demo_solver (n : nat) : Solver :=
  {| solver_properties := demo_properties;
     solver_supported_problem_types := ["bqm"; "dqm"]%string;
     solver_upload_bqm := fun _ => Ok "problem-1"%string;
     solver_sample_bqm := fun _ _ => Ok (demo_sampleset n);
     solver_sample_dqm := fun _ _ => Ok (demo_sampleset n) |}.

Definition demo_client (n : nat) : Client := {| client_get_solver := Ok (demo_solver n) |}.

Definition demo_connection (n : nat) : selector -> bool -> dict -> result Client :=
  fun _ _ _ => Ok (demo_client n).

(** A sampler as its constructor returns it. *)
Definition demo_self (n : nat) : state := constructed (demo_client n) (demo_solver n).

(** A model over the [n] variables labelled 1 to [n]. *)
Definition demo_bqm (n : nat) : BQM :=
  {| bqm_variables := (fun i => LInt (Z.of_nat i + 1)) <$> seq 0 n;
     bqm_linear := replicate n 1%Q;
     bqm_quadratic := [];
     bqm_offset := 0%Q;
     bqm_vartype := BINARY |}.

(** The size of a model above the threshold. *)
Definition large_size : nat := Z.to_nat 10001.

(** The docstring's meal: three variables, seven cases, one interaction. *)
Definition demo_dqm : DQM :=
  {| dqm_variables := [LStr "food"; LStr "drink"; LStr "dessert"];
     dqm_num_variable_interactions := 1;
     dqm_num_cases := 7;
     dqm_biases := [300; 700; 200; 400; 100; 200; 500; 1000]%Q |}.

(** A solver for discrete models only. *)
Definition dqm_only_solver : Solver :=
  {| solver_properties := demo_properties;
     solver_supported_problem_types := ["dqm"%string];
     solver_upload_bqm := fun _ => Raise (SolverError 400);
     solver_sample_bqm := fun _ _ => Raise (SolverError 400);
     solver_sample_dqm := fun _ _ => Ok (demo_sampleset 3) |}.

Definition dqm_only_connection : selector -> bool -> dict -> result Client :=
  fun _ _ _ => Ok {| client_get_solver := Ok dqm_only_solver |}.

(** The time limit [sample] works with: the computed minimum when none is
    given. *)
Definition effective_time_limit (time_limit : pyval) (m : Q) : pyval :=
  match time_limit with
  | PNone => PNum m
  | _ => time_limit
  end.

(** A time limit that passes the checks of [sample] for the minimum [m]. *)
Definition valid_time_limit (time_limit : pyval) (m : Q) : Prop :=
  time_limit = PNone \/ exists t, num_value time_limit = Some t /\ (m <= t)%Q.

(** The labels a mapping made by [enumerate] gives to a list of integer
    labels: the variable at each index; an index out of range stays. *)
Definition labels_at (vars : list label) (idx : list nat) : list label :=
  (fun i => default (LInt (Z.of_nat i)) (vars !! i)) <$> idx.

(** A sampler bound to a hybrid solver that supports [kind], with that
    solver's properties cached. *)
Definition bound_to (kind : string) (self : state) : Prop :=
  eq_str (get (solver_properties (self_solver self)) "category") "hybrid" = true /\
  kind ∈ solver_supported_problem_types (self_solver self) /\
  self__properties self = Some (solver_properties (self_solver self)).



(** A sampler bound to a solver with the properties [props] that accepts
    every problem and answers with [sampleset]. *)
Definition sampler_with (props : dict) (sampleset : SampleSet) : state :=
  let s := {| solver_properties := props;
              solver_supported_problem_types := ["bqm"; "dqm"]%string;
              solver_upload_bqm := fun _ => Ok "problem-1"%string;
              solver_sample_bqm := fun _ _ => Ok sampleset;
              solver_sample_dqm := fun _ _ => Ok sampleset |} in
  constructed {| client_get_solver := Ok s |} s.

(** A sampler bound to a solver that takes uploads and then fails every
    sampling request. *)
Definition busy_self : state :=
  let s := {| solver_properties := demo_properties;
              solver_supported_problem_types := ["bqm"; "dqm"]%string;
              solver_upload_bqm := fun _ => Ok "problem-1"%string;
              solver_sample_bqm := fun _ _ => Raise (SolverError 503);
              solver_sample_dqm := fun _ _ => Raise (SolverError 503) |} in
  constructed {| client_get_solver := Ok s |} s.

(** A sampler bound to a solver that refuses uploads. *)
Definition refusing_self : state :=
  constructed {| client_get_solver := Ok dqm_only_solver |} dqm_only_solver.

(** Properties without a curve and without a parameter table. *)
Definition bare_properties : dict := {[ "category" := PStr "hybrid" ]}.

(** Properties with an empty curve. *)
Definition empty_curve_properties : dict :=
  {[ "category" := PStr "hybrid"; "minimum_time_limit" := PList [] ]}.

(** A sample set over the integer labels 2, 0 and 1, in that order. *)
Definition shuffled_sampleset : SampleSet :=
  {| ss_variables := (fun i => LInt (Z.of_nat i)) <$> [2; 0; 1]%nat;
     ss_records := [([1; 0; 0], 800%Q, 1)] |}.

(** A discrete model without variables. *)
Definition empty_dqm : DQM :=
  {| dqm_variables := []; dqm_num_variable_interactions := 0; dqm_num_cases := 0;
     dqm_biases := [] |}.

(** * Properties *)

(** ** Comparisons of rationals *)

Lemma Qltb_true a b : Qltb a b = true <-> (a < b)%Q.
Proof.
  unfold Qltb. rewrite negb_true_iff. split.
  - intros H. apply Qnot_le_lt. intros Hle. apply Qle_bool_iff in Hle. congruence.
  - intros H. destruct (Qle_bool b a) eqn:E; [|reflexivity].
    apply Qle_bool_iff in E. lra.
Qed.

Lemma Qltb_false a b : Qltb a b = false <-> (b <= a)%Q.
Proof.
  unfold Qltb. rewrite negb_false_iff. apply Qle_bool_iff.
Qed.




Lemma sorted_lookup_lt x0 (rest : list (Q * Q)) i a ya :
  StronglySorted Qlt (x0 :: (fst <$> rest)) ->
  rest !! i = Some (a, ya) -> (x0 < a)%Q.
Proof.
  intros Hs Hi. apply StronglySorted_inv in Hs as [_ Hall].
  rewrite Forall_forall in Hall. apply (Hall a).
  apply list_elem_of_fmap. exists (a, ya). split; [reflexivity|].
  eapply list_elem_of_lookup_2. exact Hi.
Qed.



Lemma sorted_tail x0 (xs : list Q) : StronglySorted Qlt (x0 :: xs) -> StronglySorted Qlt xs.
Proof. intros H. apply StronglySorted_inv in H as [H _]. exact H. Qed.

Lemma last_cons_default {A : Type} (l : list A) : forall p d,
  List.last (p :: l) d = List.last l p.
Proof.
  induction l as [|q l IH]; intros p d; [reflexivity|].
  change (List.last (p :: q :: l) d) with (List.last (q :: l) d).
  rewrite !IH. reflexivity.
Qed.

(** Every size of an increasing curve is at most the last one. *)
Lemma sorted_le_last (rest : list (Q * Q)) : forall x0 y0 i a ya,
  StronglySorted Qlt (x0 :: (fst <$> rest)) ->
  ((x0, y0) :: rest) !! i = Some (a, ya) ->
  (a <= fst (List.last rest (x0, y0)))%Q.
Proof.
  induction rest as [|[x1 y1] rest' IH]; intros x0 y0 i a ya Hs Hi.
  - destruct i; simpl in Hi; [|destruct i; discriminate].
    injection Hi as <- <-. simpl. lra.
  - rewrite last_cons_default.
    destruct i as [|i'].
    + simpl in Hi. injection Hi as <- <-.
      assert (x0 < x1)%Q by (eapply (sorted_lookup_lt x0 ((x1, y1) :: rest') 0%nat); eauto).
      specialize (IH x1 y1 0%nat x1 y1 (sorted_tail _ _ Hs) eq_refl). lra.
    + apply (IH x1 y1 i' a ya (sorted_tail _ _ Hs)). exact Hi.
Qed.

Lemma curve_interp_below x x0 y0 (rest : list (Q * Q)) :
  increasing ((x0, y0) :: rest) -> (x < x0)%Q ->
  curve_interp x ((x0, y0) :: rest) = y0.
Proof.
  intros Hs Hx. unfold curve_interp.
  pose proof (sorted_le_last rest x0 y0 0%nat x0 y0 Hs eq_refl) as Hl.
  destruct (List.last rest (x0, y0)) as [xn yn]. simpl in Hl.
  assert (Qltb xn x = false) as -> by (apply Qltb_false; lra).
  assert (Qltb x x0 = true) as -> by (apply Qltb_true; lra).
  reflexivity.
Qed.







(** *** Reading a well-formed curve *)


Lemma mapM_result_py_iter_curve c :
  mapM_result py_iter ((fun p => PList [PNum (fst p); PNum (snd p)]) <$> c) = Ok (curve_rows c).
Proof.
  induction c as [|p c IH]; [reflexivity|].
  rewrite fmap_cons. cbn [mapM_result py_iter]. rewrite IH. reflexivity.
Qed.

Lemma curve_rows_min_length c n :
  foldr (fun r' m => Nat.min (length r') m) n (curve_rows c) = Nat.min 2 n \/ c = [].
Proof.
  induction c as [|p c IH]; [right; reflexivity|left].
  unfold curve_rows. rewrite fmap_cons. cbn [foldr length]. fold (curve_rows c).
  destruct IH as [->| ->]; [lia|reflexivity].
Qed.

Lemma zip_star_curve c :
  c <> [] ->
  zip_star (curve_rows c) =
    [(fun p => PNum (fst p)) <$> c; (fun p => PNum (snd p)) <$> c].
Proof.
  intros Hc. destruct c as [|p c]; [contradiction|].
  unfold zip_star, curve_rows. rewrite fmap_cons. fold (curve_rows c).
  destruct (curve_rows_min_length c (length [PNum p.1; PNum p.2])) as [->| ->].
  - cbn [length Nat.min seq fmap list_fmap]. unfold curve_rows.
    rewrite <- !list_fmap_compose. reflexivity.
  - reflexivity.
Qed.

Lemma asarray_PNum (l : list Q) : np.asarray (PNum <$> l) = Ok l.
Proof.
  unfold np.asarray. induction l as [|q l IH]; [reflexivity|].
  rewrite fmap_cons. cbn [mapM_result num_value]. rewrite IH. reflexivity.
Qed.

Lemma interp_curve x c :
  c <> [] ->
  np.interp x ((fun p => PNum (fst p)) <$> c) ((fun p => PNum (snd p)) <$> c)
  = Ok (curve_interp x c).
Proof.
  intros Hc. unfold np.interp.
  assert ((fun p : Q * Q => PNum (fst p)) <$> c = PNum <$> (fst <$> c)) as ->
      by (rewrite <- list_fmap_compose; reflexivity).
  assert ((fun p : Q * Q => PNum (snd p)) <$> c = PNum <$> (snd <$> c)) as ->
      by (rewrite <- list_fmap_compose; reflexivity).
  rewrite !asarray_PNum.
  rewrite !length_fmap.
  destruct c as [|[x0 y0] rest]; [contradiction|].
  rewrite bool_decide_eq_false_2 by (simpl; lia).
  rewrite bool_decide_eq_false_2 by (intros H; apply H; reflexivity).
  assert (combine (((x0, y0) :: rest).*1) (((x0, y0) :: rest).*2) = (x0, y0) :: rest) as ->.
  { generalize ((x0, y0) :: rest). intros l. induction l as [|[a b] l IH]; [reflexivity|].
    simpl. f_equal. exact IH. }
  unfold curve_interp. destruct (List.last rest (x0, y0)) as [xn yn].
  destruct (Qltb xn x); [reflexivity|]. destruct (Qltb x x0); reflexivity.
Qed.

Lemma properties_cached self p :
  self__properties self = Some p -> LeapHybridSampler.properties self = (Ok p, self).
Proof. intros H. unfold LeapHybridSampler.properties. rewrite H. reflexivity. Qed.

Lemma sample_min_time_limit_curve self props c n :
  self__properties self = Some props ->
  props !! "minimum_time_limit" = Some (curve_val c) ->
  c <> [] ->
  LeapHybridSampler.sample_min_time_limit n self = (Ok (curve_interp (inject_Z n) c), self).
Proof.
  intros Hp Hc Hne. unfold LeapHybridSampler.sample_min_time_limit.
  unfold mbind, M_bind. rewrite (properties_cached _ _ Hp).
  unfold lift, getitem. rewrite Hc. unfold curve_val at 1. cbn [py_iter].
  rewrite mapM_result_py_iter_curve. rewrite (zip_star_curve c Hne).
  rewrite (interp_curve _ c Hne). reflexivity.
Qed.

Lemma array_curve c :
  c <> [] -> np.array (curve_val c) = Ok (curve_rows c).
Proof.
  intros Hne. destruct c as [|p c]; [contradiction|].
  unfold np.array, curve_val. rewrite fmap_cons.
  assert (forall l : list (Q * Q),
    mapM_result
      (fun row => match row with
                  | PList r' =>
                      if bool_decide (length r' = length [PNum p.1; PNum p.2]) then Ok r'
                      else Raise (IndexError (Msg "too many indices for array"))
                  | _ => Raise (IndexError (Msg "too many indices for array"))
                  end)
      ((fun p => PList [PNum (fst p); PNum (snd p)]) <$> l) = Ok (curve_rows l)) as Hm.
  { induction l as [|q l IH]; [reflexivity|].
    rewrite fmap_cons. cbn [mapM_result]. rewrite IH. reflexivity. }
  change (PList [PNum p.1; PNum p.2] :: ((fun p => PList [PNum (fst p); PNum (snd p)]) <$> c))
    with ((fun p => PList [PNum (fst p); PNum (snd p)]) <$> (p :: c)).
  rewrite Hm.
  assert (forallb (forallb is_Number) (curve_rows (p :: c)) = true) as ->; [|reflexivity].
  generalize (p :: c). intros l. induction l as [|q l IH]; [reflexivity|].
  unfold curve_rows. rewrite fmap_cons. cbn [forallb is_Number andb]. exact IH.
Qed.

Lemma column_curve_0 c :
  np.column (curve_rows c) 0 = Ok ((fun p => PNum (fst p)) <$> c).
Proof.
  unfold np.column, curve_rows. induction c as [|p c IH]; [reflexivity|].
  rewrite !fmap_cons. cbn [mapM_result lookup list_lookup]. rewrite IH. reflexivity.
Qed.

Lemma column_curve_1 c :
  np.column (curve_rows c) 1 = Ok ((fun p => PNum (snd p)) <$> c).
Proof.
  unfold np.column, curve_rows. induction c as [|p c IH]; [reflexivity|].
  rewrite !fmap_cons. cbn [mapM_result lookup list_lookup]. rewrite IH. reflexivity.
Qed.

Lemma min_time_limit_curve self props c dqm :
  self__properties self = Some props ->
  props !! "minimum_time_limit" = Some (curve_val c) ->
  c <> [] ->
  dqm_num_variables dqm <> 0 ->
  LeapHybridDQMSampler.min_time_limit dqm self
  = (Ok (py_max 5 (curve_interp (density dqm) c)), self).
Proof.
  intros Hp Hc Hne Hn. unfold LeapHybridDQMSampler.min_time_limit.
  rewrite bool_decide_eq_false_2 by exact Hn.
  unfold mbind, M_bind, mret, M_ret.
  change LeapHybridDQMSampler.properties with LeapHybridSampler.properties.
  rewrite (properties_cached _ _ Hp).
  unfold lift, getitem. rewrite Hc. rewrite (array_curve c Hne).
  rewrite column_curve_0, column_curve_1.
  fold (density dqm). rewrite (interp_curve _ c Hne). reflexivity.
Qed.

(** ** Relabelling *)

Lemma enumerate_keys (vars : list label) :
  (imap (fun i v => (LInt (Z.of_nat i), v)) vars).*1 = indices (length vars).
Proof.
  unfold indices. apply list_eq. intros i.
  rewrite !list_lookup_fmap, list_lookup_imap.
  destruct (vars !! i) as [v|] eqn:E.
  - apply lookup_lt_Some in E as Hlt. rewrite lookup_seq_lt by exact Hlt. reflexivity.
  - apply lookup_ge_None in E as Hge. rewrite lookup_seq_ge by exact Hge. reflexivity.
Qed.

Lemma NoDup_indices n : NoDup (indices n).
Proof.
  unfold indices. apply NoDup_fmap_2; [|apply NoDup_seq].
  intros i j H. injection H as H. lia.
Qed.

Lemma enumerate_dict_lookup (vars : list label) (i : nat) :
  enumerate_dict vars !! LInt (Z.of_nat i) = vars !! i.
Proof.
  unfold enumerate_dict.
  assert (NoDup (reverse (imap (fun i v => (LInt (Z.of_nat i), v)) vars)).*1) as Hnd.
  { rewrite fmap_reverse, enumerate_keys, reverse_Permutation. apply NoDup_indices. }
  destruct (vars !! i) as [v|] eqn:E.
  - apply elem_of_list_to_map; [exact Hnd|].
    apply elem_of_reverse, elem_of_lookup_imap. exists i, v. auto.
  - apply not_elem_of_list_to_map.
    rewrite fmap_reverse, enumerate_keys, elem_of_reverse.
    unfold indices. rewrite list_elem_of_fmap. intros (j & Hj & Hin).
    injection Hj as Hj. apply Nat2Z.inj in Hj. subst j.
    apply elem_of_seq in Hin. apply lookup_ge_None in E. lia.
Qed.

(** The label round trip: a sample set over the integer labels of the
    unlabelled model comes back over the model's own variables. *)
Lemma relabel_round_trip (vars : list label) records :
  relabel_variables {| ss_variables := indices (length vars); ss_records := records |}
                    (enumerate_dict vars)
  = Ok {| ss_variables := vars; ss_records := records |}.
Proof.
  unfold relabel_variables. cbn [ss_variables ss_records].
  rewrite bool_decide_eq_false_2.
  - f_equal. f_equal. apply list_eq. intros i.
    rewrite list_lookup_fmap. unfold indices. rewrite list_lookup_fmap.
    destruct (vars !! i) as [v|] eqn:E.
    + apply lookup_lt_Some in E as Hlt. rewrite lookup_seq_lt by exact Hlt.
      cbn. rewrite enumerate_dict_lookup, E. reflexivity.
    + apply lookup_ge_None in E as Hge. rewrite lookup_seq_ge by exact Hge. reflexivity.
  - rewrite Exists_exists. intros (v & Hin & _ & Hout). apply Hout.
    unfold indices in Hin. apply list_elem_of_fmap in Hin as (i & -> & Hi).
    apply elem_of_seq in Hi. apply elem_of_dom.
    rewrite enumerate_dict_lookup. apply lookup_lt_is_Some. lia.
Qed.

(** ** Running [sample] *)

Lemma log_log a b self : log b (log a self) = log (a ++ b) self.
Proof. unfold log. cbn. rewrite <- app_assoc. reflexivity. Qed.

Lemma _sample_run bqm kwargs self :
  LeapHybridSampler._sample bqm kwargs self =
    let fv := open_FileView bqm 2 false in
    match solver_upload_bqm (self_solver self) fv with
    | Raise e => (Raise e, log [EvFileView 2 false; EvUploadBqm fv] self)
    | Ok problem_id =>
        (solver_sample_bqm (self_solver self) problem_id kwargs,
         log [EvFileView 2 false; EvUploadBqm fv; EvSampleBqm problem_id kwargs] self)
    end.
Proof.
  unfold LeapHybridSampler._sample, as_bqm, mbind, M_bind, emit, upload_bqm, sample_bqm, emit.
  cbn [self_solver log]. rewrite !log_log. cbn [app].
  destruct (solver_upload_bqm (self_solver self) (open_FileView bqm 2 false)); cbn.
  - rewrite !log_log. reflexivity.
  - reflexivity.
Qed.

Lemma _sample_large_run bqm kwargs self :
  LeapHybridSampler._sample_large bqm kwargs self =
    let fv := open_FileView bqm 2 true in
    match solver_upload_bqm (self_solver self) fv with
    | Raise e => (Raise e, log [EvFileView 2 true; EvUploadBqm fv] self)
    | Ok problem_id =>
        (match solver_sample_bqm (self_solver self) problem_id kwargs with
         | Raise e => Raise e
         | Ok sampleset => relabel_variables sampleset (enumerate_dict (bqm_variables bqm))
         end,
         log [EvFileView 2 true; EvUploadBqm fv; EvSampleBqm problem_id kwargs] self)
    end.
Proof.
  unfold LeapHybridSampler._sample_large, as_bqm, mbind, M_bind, emit, upload_bqm, sample_bqm, emit, lift.
  cbn [self_solver log]. rewrite !log_log. cbn [app].
  destruct (solver_upload_bqm (self_solver self) (open_FileView bqm 2 true)); cbn.
  - rewrite !log_log. cbn [app].
    destruct (solver_sample_bqm (self_solver self) a kwargs); reflexivity.
  - reflexivity.
Qed.

(** The checks of [sample], once the minimum is known. *)
Lemma sample_run bqm time_limit kwargs self m self' :
  LeapHybridSampler.sample_min_time_limit (bqm_num_variables bqm) self = (Ok m, self') ->
  LeapHybridSampler.sample bqm time_limit kwargs self =
    let time_limit := match time_limit with PNone => PNum m | _ => time_limit end in
    if negb (is_Number time_limit) then
      (Raise (TypeError (Msg "time limit must be a number")), self')
    else if py_lt time_limit m then
      (Raise (ValueError (Fmt "time limit for problem size {} must be at least {}"
                              [inject_Z (bqm_num_variables bqm); m])), self')
    else if LeapHybridSampler._INTEGER_BQM_SIZE_THRESHOLD <? bqm_num_variables bqm then
      LeapHybridSampler._sample_large bqm (<["time_limit" := time_limit]> kwargs) self'
    else
      LeapHybridSampler._sample bqm (<["time_limit" := time_limit]> kwargs) self'.
Proof.
  intros Hm. unfold LeapHybridSampler.sample.
  unfold mbind at 1. unfold M_bind at 1. rewrite Hm. cbv zeta.
  destruct (negb (is_Number _)); [reflexivity|].
  destruct (py_lt _ m); [reflexivity|].
  destruct (_ <? _); reflexivity.
Qed.

Lemma properties_trace self :
  trace (snd (LeapHybridSampler.properties self)) = trace self.
Proof.
  unfold LeapHybridSampler.properties. destruct (self__properties self); reflexivity.
Qed.

Lemma sample_min_time_limit_state n self :
  snd (LeapHybridSampler.sample_min_time_limit n self) = snd (LeapHybridSampler.properties self).
Proof.
  unfold LeapHybridSampler.sample_min_time_limit, mbind, M_bind, lift, raise.
  destruct (LeapHybridSampler.properties self) as [[props|e] s]; [|reflexivity].
  destruct (getitem props "minimum_time_limit"); [|reflexivity].
  destruct (py_iter a); [|reflexivity].
  destruct (mapM_result py_iter a0); [|reflexivity].
  destruct (zip_star a1) as [|xx [|yy [|zz l]]]; try reflexivity.
Qed.

Lemma sample_min_time_limit_trace n self r self' :
  LeapHybridSampler.sample_min_time_limit n self = (r, self') -> trace self' = trace self.
Proof.
  intros H. pose proof (sample_min_time_limit_state n self) as Hs.
  rewrite H in Hs. cbn in Hs. rewrite Hs. apply properties_trace.
Qed.

Lemma is_Number_num_value v : is_Number v = true <-> exists t, num_value v = Some t.
Proof.
  destruct v; cbn; split; try discriminate; eauto; intros [t Ht]; discriminate.
Qed.

Lemma num_value_not_None v t : num_value v = Some t -> v <> PNone.
Proof. intros H ->. discriminate. Qed.

(** The trace of a submission by [_sample] or [_sample_large]. *)
Lemma submit_trace (large : bool) bqm params self :
  trace (snd ((if large then LeapHybridSampler._sample_large bqm params
               else LeapHybridSampler._sample bqm params) self))
  = trace self ++
      EvFileView 2 large :: EvUploadBqm (open_FileView bqm 2 large) ::
      match solver_upload_bqm (self_solver self) (open_FileView bqm 2 large) with
      | Ok problem_id => [EvSampleBqm problem_id params]
      | Raise _ => []
      end.
Proof.
  destruct large; [rewrite _sample_large_run|rewrite _sample_run]; cbv zeta;
    destruct (solver_upload_bqm _ _); reflexivity.
Qed.

Lemma properties_solver self :
  self_solver (snd (LeapHybridSampler.properties self)) = self_solver self.
Proof.
  unfold LeapHybridSampler.properties. destruct (self__properties self); reflexivity.
Qed.

Lemma sample_min_time_limit_solver n self r self' :
  LeapHybridSampler.sample_min_time_limit n self = (r, self') -> self_solver self' = self_solver self.
Proof.
  intros H. pose proof (sample_min_time_limit_state n self) as Hs.
  rewrite H in Hs. cbn in Hs. rewrite Hs. apply properties_solver.
Qed.

(** Claim C1.  Let [sample] have computed the minimum time limit [m] for
    the model (the hypothesis; the object is then [self'], whose trace is
    that of [self]).  For a caller-supplied [time_limit]:
    - if it is not a number, [sample] raises [TypeError] and the trace is
      unchanged: nothing was serialised and no solver call was made;
    - if it is a number below [m], [sample] raises [ValueError], again
      with the trace unchanged;
    - if it is a number at least [m], no check fails: [sample] is the
      submission by [_sample] or [_sample_large] with that time limit,
      and the trace gains the file view, the upload and, when the upload
      succeeds, the sampling request carrying [time_limit]. *)
Theorem C1_sample_time_limit_checks bqm time_limit kwargs self m self' :
  LeapHybridSampler.sample_min_time_limit (bqm_num_variables bqm) self = (Ok m, self') ->
  trace self' = trace self /\
  (time_limit <> PNone -> is_Number time_limit = false ->
   LeapHybridSampler.sample bqm time_limit kwargs self
   = (Raise (TypeError (Msg "time limit must be a number")), self')) /\
  (forall t, num_value time_limit = Some t -> (t < m)%Q ->
   LeapHybridSampler.sample bqm time_limit kwargs self
   = (Raise (ValueError (Fmt "time limit for problem size {} must be at least {}"
                             [inject_Z (bqm_num_variables bqm); m])), self')) /\
  (forall t, num_value time_limit = Some t -> (m <= t)%Q ->
   let large := 10000 <? bqm_num_variables bqm in
   let fv := open_FileView bqm 2 large in
   let params := <["time_limit" := time_limit]> kwargs in
   LeapHybridSampler.sample bqm time_limit kwargs self
   = (if large then LeapHybridSampler._sample_large bqm params
      else LeapHybridSampler._sample bqm params) self' /\
   trace (snd (LeapHybridSampler.sample bqm time_limit kwargs self))
   = trace self ++
       EvFileView 2 large :: EvUploadBqm fv ::
       match solver_upload_bqm (self_solver self) fv with
       | Ok problem_id => [EvSampleBqm problem_id params]
       | Raise _ => []
       end).
Proof.
  intros Hm. pose proof (sample_run bqm time_limit kwargs self m self' Hm) as Hrun.
  cbv zeta in Hrun.
  split; [eapply sample_min_time_limit_trace; exact Hm|].
  split; [|split].
  - intros Hnone Hnum. rewrite Hrun.
    destruct time_limit; try contradiction; try discriminate; reflexivity.
  - intros t Ht Hlt. rewrite Hrun.
    assert (match time_limit with PNone => PNum m | _ => time_limit end = time_limit) as ->
        by (destruct time_limit; try discriminate; reflexivity).
    assert (is_Number time_limit = true) as -> by (apply is_Number_num_value; eauto).
    unfold py_lt. rewrite Ht. cbn [negb].
    assert (Qltb t m = true) as -> by (apply Qltb_true; exact Hlt). reflexivity.
  - intros t Ht Hle. cbv zeta.
    assert (LeapHybridSampler.sample bqm time_limit kwargs self
            = (if 10000 <? bqm_num_variables bqm
               then LeapHybridSampler._sample_large bqm (<["time_limit" := time_limit]> kwargs)
               else LeapHybridSampler._sample bqm (<["time_limit" := time_limit]> kwargs)) self')
      as Heq.
    { rewrite Hrun.
      assert (match time_limit with PNone => PNum m | _ => time_limit end = time_limit) as ->
          by (destruct time_limit; try discriminate; reflexivity).
      assert (is_Number time_limit = true) as -> by (apply is_Number_num_value; eauto).
      unfold py_lt. rewrite Ht. cbn [negb].
      assert (Qltb t m = false) as -> by (apply Qltb_false; exact Hle).
      unfold LeapHybridSampler._INTEGER_BQM_SIZE_THRESHOLD.
      destruct (10000 <? bqm_num_variables bqm); reflexivity. }
    split; [exact Heq|].
    rewrite Heq, submit_trace.
    rewrite (sample_min_time_limit_trace _ _ _ _ Hm), (sample_min_time_limit_solver _ _ _ _ Hm).
    reflexivity.
Qed.



(** In binary64 arithmetic too, the docstring's example is exactly 5.0:
    no rounding error is left by the interpolation between (1, 0.1) and
    (100, 10.0) at 50. *)
#[warnings="-inexact-float"]
Remark docstring_example_in_doubles :
  np.interp_segment_double 50 1 0.1 100 10 = 5%float.
Proof. vm_compute. reflexivity. Qed.





(** Claim C5.  Let the time limit be valid: omitted, or a number at least
    the computed minimum [m].  With more than 10,000 variables [sample]
    uploads the file view without labels, and when the solver answers with
    a sample set over the integer labels [0 .. n-1] the result is that
    sample set over the model's own variables, in the model's order, with
    the records untouched.  With at most 10,000 variables [sample] uploads
    the file view with the labels and returns what the solver returns. *)
Theorem C5_large_and_small_paths bqm time_limit kwargs self m self' :
  LeapHybridSampler.sample_min_time_limit (bqm_num_variables bqm) self = (Ok m, self') ->
  (time_limit = PNone \/ exists t, num_value time_limit = Some t /\ (m <= t)%Q) ->
  let effective := match time_limit with PNone => PNum m | _ => time_limit end in
  let params := <["time_limit" := effective]> kwargs in
  (10000 < bqm_num_variables bqm ->
   let fv := open_FileView bqm 2 true in
   fv_labels fv = None /\
   forall problem_id sampleset,
     solver_upload_bqm (self_solver self) fv = Ok problem_id ->
     solver_sample_bqm (self_solver self) problem_id params = Ok sampleset ->
     ss_variables sampleset = indices (length (bqm_variables bqm)) ->
     LeapHybridSampler.sample bqm time_limit kwargs self
     = (Ok {| ss_variables := bqm_variables bqm; ss_records := ss_records sampleset |},
        log [EvFileView 2 true; EvUploadBqm fv; EvSampleBqm problem_id params] self')) /\
  (bqm_num_variables bqm <= 10000 ->
   let fv := open_FileView bqm 2 false in
   fv_labels fv = Some (bqm_variables bqm) /\
   forall problem_id,
     solver_upload_bqm (self_solver self) fv = Ok problem_id ->
     LeapHybridSampler.sample bqm time_limit kwargs self
     = (solver_sample_bqm (self_solver self) problem_id params,
        log [EvFileView 2 false; EvUploadBqm fv; EvSampleBqm problem_id params] self')).
Proof.
  intros Hm Hvalid. cbv zeta.
  pose proof (sample_min_time_limit_solver _ _ _ _ Hm) as Hsolver.
  assert (forall large : bool,
             (10000 <? bqm_num_variables bqm) = large ->
             LeapHybridSampler.sample bqm time_limit kwargs self
             = (if large
                then LeapHybridSampler._sample_large bqm
                       (<["time_limit" := match time_limit with PNone => PNum m | _ => time_limit end]> kwargs)
                else LeapHybridSampler._sample bqm
                       (<["time_limit" := match time_limit with PNone => PNum m | _ => time_limit end]> kwargs))
                 self') as Hdispatch.
  { intros large Hlarge. rewrite (sample_run _ _ _ _ _ _ Hm). cbv zeta.
    unfold LeapHybridSampler._INTEGER_BQM_SIZE_THRESHOLD. rewrite Hlarge.
    destruct Hvalid as [->|(t & Ht & Hle)].
    - cbn [is_Number negb]. unfold py_lt. cbn [num_value].
      assert (Qltb m m = false) as -> by (apply Qltb_false; lra).
      destruct large; reflexivity.
    - assert (match time_limit with PNone => PNum m | _ => time_limit end = time_limit) as ->
          by (destruct time_limit; try discriminate; reflexivity).
      assert (is_Number time_limit = true) as -> by (apply is_Number_num_value; eauto).
      unfold py_lt. rewrite Ht. cbn [negb].
      assert (Qltb t m = false) as -> by (apply Qltb_false; exact Hle).
      destruct large; reflexivity. }
  split.
  - intros Hlarge. split; [reflexivity|].
    intros problem_id sampleset Hup Hsample Hvars.
    rewrite (Hdispatch true) by (apply Z.ltb_lt; exact Hlarge).
    rewrite _sample_large_run. cbv zeta. rewrite Hsolver, Hup, Hsample.
    destruct sampleset as [vars records]. cbn [ss_variables ss_records] in *. subst vars.
    rewrite relabel_round_trip. reflexivity.
  - intros Hsmall. split; [reflexivity|].
    intros problem_id Hup.
    rewrite (Hdispatch false) by (apply Z.ltb_ge; exact Hsmall).
    rewrite _sample_run. cbv zeta. rewrite Hsolver, Hup. reflexivity.
Qed.

(** ** Running [sample_dqm] *)

(** The submission of [sample_dqm] with the time limit [time_limit]. *)
Lemma sample_dqm_run dqm time_limit compressed kwargs self :
  LeapHybridDQMSampler.sample_dqm dqm time_limit compressed kwargs self =
    let f := to_file dqm compressed true in
    let submit (tl : pyval) (self' : state) :=
      (match solver_sample_dqm (self_solver self') f {["time_limit" := tl]} with
       | Raise e => Raise e
       | Ok sampleset => relabel_variables sampleset (enumerate_dict (dqm_variables dqm))
       end,
       log [EvToFile compressed true; EvSampleDqm f {["time_limit" := tl]}] self') in
    match time_limit with
    | PNone =>
        match LeapHybridDQMSampler.min_time_limit dqm self with
        | (Ok t, self') => submit (PNum t) self'
        | (Raise e, self') => (Raise e, self')
        end
    | _ => submit time_limit self
    end.
Proof.
  cbv zeta.
  assert (forall tl self',
    (emit (EvToFile compressed true);;
     sampleset ← solver_sample_dqm_call (to_file dqm compressed true) {["time_limit" := tl]};
     lift (relabel_variables sampleset (enumerate_dict (dqm_variables dqm)))) self'
    = (match solver_sample_dqm (self_solver self') (to_file dqm compressed true)
               {["time_limit" := tl]} with
       | Raise e => Raise e
       | Ok sampleset => relabel_variables sampleset (enumerate_dict (dqm_variables dqm))
       end,
       log [EvToFile compressed true;
            EvSampleDqm (to_file dqm compressed true) {["time_limit" := tl]}] self')) as Hsub.
  { intros tl self'. unfold mbind, M_bind, emit, solver_sample_dqm_call, emit, lift.
    cbn [self_solver log]. rewrite !log_log. cbn [app].
    destruct (solver_sample_dqm _ _ _); reflexivity. }
  unfold LeapHybridDQMSampler.sample_dqm.
  destruct time_limit; try (unfold mbind at 1; unfold M_bind at 1; cbn [mret M_ret]; apply Hsub).
  unfold mbind at 1. unfold M_bind at 1. unfold mbind at 1. unfold M_bind at 1.
  destruct (LeapHybridDQMSampler.min_time_limit dqm self) as [[t|e] self']; [|reflexivity].
  cbn [mret M_ret]. apply Hsub.
Qed.

Lemma min_time_limit_state dqm self :
  snd (LeapHybridDQMSampler.min_time_limit dqm self) = self \/
  snd (LeapHybridDQMSampler.min_time_limit dqm self) = snd (LeapHybridSampler.properties self).
Proof.
  unfold LeapHybridDQMSampler.min_time_limit.
  destruct (bool_decide (dqm_num_variables dqm = 0)); [left; reflexivity|right].
  unfold mbind, M_bind, mret, M_ret, lift.
  change LeapHybridDQMSampler.properties with LeapHybridSampler.properties.
  destruct (LeapHybridSampler.properties self) as [[props|e] s]; [|reflexivity].
  destruct (getitem props "minimum_time_limit"); [|reflexivity].
  destruct (np.array a); [|reflexivity].
  destruct (np.column a0 0); [|reflexivity].
  destruct (np.column a0 1); [|reflexivity].
  destruct (np.interp _ _ _); reflexivity.
Qed.

Lemma min_time_limit_trace dqm self :
  trace (snd (LeapHybridDQMSampler.min_time_limit dqm self)) = trace self.
Proof.
  destruct (min_time_limit_state dqm self) as [-> | ->]; [reflexivity|apply properties_trace].
Qed.

(** Claim C9.  [sample_dqm] behaves with any extra keyword options as it
    does with none: same result, same final object, same trace.  What it
    adds to the trace is nothing (the time limit could not be computed)
    or the serialisation step and one sampling request whose only
    parameter is the time limit. *)
Theorem C9_sample_dqm_drops_kwargs dqm time_limit compressed kwargs self :
  LeapHybridDQMSampler.sample_dqm dqm time_limit compressed kwargs self
  = LeapHybridDQMSampler.sample_dqm dqm time_limit compressed ∅ self /\
  exists new,
    trace (snd (LeapHybridDQMSampler.sample_dqm dqm time_limit compressed kwargs self))
    = trace self ++ new /\
    (new = [] \/
     exists tl, new = [EvToFile compressed true;
                       EvSampleDqm (to_file dqm compressed true) {["time_limit" := tl]}]).
Proof.
  split; [rewrite !sample_dqm_run; reflexivity|].
  rewrite sample_dqm_run. cbv zeta.
  destruct time_limit;
    try (eexists; split; [reflexivity|right; eexists; reflexivity]).
  pose proof (min_time_limit_trace dqm self) as Ht.
  destruct (LeapHybridDQMSampler.min_time_limit dqm self) as [[t|e] self']; cbn in Ht.
  - eexists. split; [cbn [snd log trace]; rewrite Ht; reflexivity|].
    right. eexists. reflexivity.
  - exists []. split; [cbn [snd]; rewrite Ht, app_nil_r; reflexivity|left; reflexivity].
Qed.

(** Claim C6.  With [time_limit] omitted, the time limit sent to the solver
    is the computed minimum: for [sample] the value of the curve at the
    number of variables, which is what the first lines of [sample]
    compute; for [sample_dqm] the result of [min_time_limit], which is
    [max(5, curve value at the density)]. *)
Theorem C6_default_time_limit_is_minimum self props c :
  self__properties self = Some props ->
  props !! "minimum_time_limit" = Some (curve_val c) ->
  c <> [] ->
  (forall bqm kwargs,
      let m := curve_interp (inject_Z (bqm_num_variables bqm)) c in
      let large := 10000 <? bqm_num_variables bqm in
      let fv := open_FileView bqm 2 large in
      let params := <["time_limit" := PNum m]> kwargs in
      LeapHybridSampler.sample_min_time_limit (bqm_num_variables bqm) self = (Ok m, self) /\
      LeapHybridSampler.sample bqm PNone kwargs self
      = (if large then LeapHybridSampler._sample_large bqm params
         else LeapHybridSampler._sample bqm params) self /\
      trace (snd (LeapHybridSampler.sample bqm PNone kwargs self))
      = trace self ++
          EvFileView 2 large :: EvUploadBqm fv ::
          match solver_upload_bqm (self_solver self) fv with
          | Ok problem_id => [EvSampleBqm problem_id params]
          | Raise _ => []
          end) /\
  (forall dqm compressed kwargs,
      0 < dqm_num_variables dqm ->
      let t := py_max 5 (curve_interp (density dqm) c) in
      let f := to_file dqm compressed true in
      LeapHybridDQMSampler.min_time_limit dqm self = (Ok t, self) /\
      LeapHybridDQMSampler.sample_dqm dqm PNone compressed kwargs self
      = (match solver_sample_dqm (self_solver self) f {["time_limit" := PNum t]} with
         | Raise e => Raise e
         | Ok sampleset => relabel_variables sampleset (enumerate_dict (dqm_variables dqm))
         end,
         log [EvToFile compressed true; EvSampleDqm f {["time_limit" := PNum t]}] self)).
Proof.
  intros Hp Hc Hne. split.
  - intros bqm kwargs. cbv zeta.
    pose proof (sample_min_time_limit_curve self props c (bqm_num_variables bqm) Hp Hc Hne) as Hm.
    split; [exact Hm|].
    assert (LeapHybridSampler.sample bqm PNone kwargs self
            = (if 10000 <? bqm_num_variables bqm
               then LeapHybridSampler._sample_large bqm
                      (<["time_limit" := PNum (curve_interp (inject_Z (bqm_num_variables bqm)) c)]> kwargs)
               else LeapHybridSampler._sample bqm
                      (<["time_limit" := PNum (curve_interp (inject_Z (bqm_num_variables bqm)) c)]> kwargs))
                self) as Heq.
    { rewrite (sample_run _ _ _ _ _ _ Hm). cbv zeta. cbn [is_Number negb].
      unfold py_lt. cbn [num_value].
      assert (forall q, Qltb q q = false) as -> by (intros q; apply Qltb_false; lra).
      unfold LeapHybridSampler._INTEGER_BQM_SIZE_THRESHOLD.
      destruct (10000 <? bqm_num_variables bqm); reflexivity. }
    split; [exact Heq|]. rewrite Heq. apply submit_trace.
  - intros dqm compressed kwargs Hn. cbv zeta.
    pose proof (min_time_limit_curve self props c dqm Hp Hc Hne ltac:(lia)) as Hm.
    split; [exact Hm|].
    rewrite sample_dqm_run. cbv zeta. rewrite Hm. reflexivity.
Qed.

(** ** The constructors *)

Lemma setdefault_union k v (d : dict) : snd (setdefault k v d) = d ∪ {[k := v]}.
Proof.
  unfold setdefault. destruct (d !! k) as [a|] eqn:E; cbn [snd].
  - apply map_eq. intros i. rewrite lookup_union.
    destruct (decide (i = k)) as [->|Hne].
    + rewrite E, lookup_singleton_eq. reflexivity.
    + rewrite lookup_singleton_ne by congruence. destruct (d !! i); reflexivity.
  - apply insert_union_singleton_r. exact E.
Qed.

Lemma setdefault_fst k v (d : dict) : fst (setdefault k v d) = default v (d !! k).
Proof. unfold setdefault. destruct (d !! k); reflexivity. Qed.

Lemma setdefault_lookup_ne k k' v (d : dict) :
  k <> k' -> snd (setdefault k v d) !! k' = d !! k'.
Proof.
  intros Hne. unfold setdefault. destruct (d !! k); cbn [snd]; [reflexivity|].
  apply lookup_insert_ne. exact Hne.
Qed.

Lemma filter_defaults_union kind (d : dict) :
  snd (setdefault "order_by" (PStr "-version")
         (snd (setdefault "supported_problem_types__contains" (PStr kind)
                 (snd (setdefault "category" (PStr "hybrid") d)))))
  = d ∪ filter_defaults kind.
Proof.
  rewrite !setdefault_union. unfold filter_defaults.
  rewrite !insert_union_singleton_l. rewrite <- !(assoc_L (∪)). reflexivity.
Qed.

Lemma lookup_union_defaults kind (d : dict) k :
  (d ∪ filter_defaults kind) !! k
  = match d !! k with Some v => Some v | None => filter_defaults kind !! k end.
Proof.
  rewrite lookup_union. destruct (d !! k), (filter_defaults kind !! k); reflexivity.
Qed.

Lemma properties_new_self c s :
  LeapHybridSampler.properties (new_self c s) = (Ok (solver_properties s), constructed c s).
Proof. reflexivity. Qed.

Lemma accepts_true kind (d : dict) :
  accepts kind d = true ->
  eq_str (fst (setdefault "category" (PStr "hybrid") d)) "hybrid" = true /\
  eq_str (fst (setdefault "supported_problem_types__contains" (PStr kind)
                 (snd (setdefault "category" (PStr "hybrid") d)))) kind = true.
Proof.
  unfold accepts. intros H. apply andb_true_iff in H as [Hc Ht].
  split.
  - rewrite setdefault_fst. destruct (d !! "category"); [exact Hc|].
    cbn. apply bool_decide_eq_true_2. reflexivity.
  - rewrite setdefault_fst, setdefault_lookup_ne by discriminate.
    destruct (d !! "supported_problem_types__contains"); [exact Ht|].
    cbn. apply bool_decide_eq_true_2. reflexivity.
Qed.

Ltac init_after :=
  unfold resolve, with_client_default;
  match goal with
  | |- context [?fc ?sel ?cc (snd (setdefault "client" (PStr "hybrid") ?cfg))] =>
      destruct (fc sel cc (snd (setdefault "client" (PStr "hybrid") cfg)));
      [|reflexivity]
  end;
  match goal with
  | |- context [client_get_solver ?c] => destruct (client_get_solver c); [|reflexivity]
  end;
  change LeapHybridDQMSampler.properties with LeapHybridSampler.properties;
  rewrite properties_new_self; cbn [self_solver constructed];
  match goal with
  | |- context [negb (eq_str ?v "hybrid")] => destruct (negb (eq_str v "hybrid")); [reflexivity|]
  end;
  match goal with
  | |- context [negb (bool_decide ?P)] => destruct (negb (bool_decide P)); reflexivity
  end.

Ltac init_mapping d Hacc kind :=
  destruct (accepts_true kind d Hacc) as [Hc Ht];
  rewrite <- (filter_defaults_union kind d);
  destruct (setdefault "category" (PStr "hybrid") d) as [category d1];
  cbn [fst snd] in *; rewrite Hc; cbn [negb];
  destruct (setdefault "supported_problem_types__contains" (PStr kind) d1) as [ptype d2];
  cbn [fst snd] in *; rewrite Ht; cbn [negb];
  destruct (setdefault "order_by" (PStr "-version") d2) as [o d3];
  cbn [snd]; init_after.

Lemma init_accepted_bqm from_config sel sel' cc config :
  selector_passed "bqm" sel = Some sel' ->
  LeapHybridSampler.__init__ from_config sel cc config = resolve "bqm" from_config sel' cc config.
Proof.
  intros Hp. unfold LeapHybridSampler.__init__. cbv zeta.
  destruct sel as [|d|name]; cbn [selector_passed] in Hp.
  - injection Hp as <-. rewrite <- (left_id_L ∅ (∪) (filter_defaults "bqm")).
    assert (accepts "bqm" ∅ = true) as Hacc by reflexivity.
    init_mapping (∅ : dict) Hacc "bqm".
  - destruct (accepts "bqm" d) eqn:Hacc; [|discriminate]. injection Hp as <-.
    init_mapping d Hacc "bqm".
  - injection Hp as <-. init_after.
Qed.

Lemma init_accepted_dqm from_config sel sel' cc config :
  selector_passed "dqm" sel = Some sel' ->
  LeapHybridDQMSampler.__init__ from_config sel cc config = resolve "dqm" from_config sel' cc config.
Proof.
  intros Hp. unfold LeapHybridDQMSampler.__init__. cbv zeta.
  destruct sel as [|d|name]; cbn [selector_passed] in Hp.
  - injection Hp as <-. rewrite <- (left_id_L ∅ (∪) (filter_defaults "dqm")).
    assert (accepts "dqm" ∅ = true) as Hacc by reflexivity.
    init_mapping (∅ : dict) Hacc "dqm".
  - destruct (accepts "dqm" d) eqn:Hacc; [|discriminate]. injection Hp as <-.
    init_mapping d Hacc "dqm".
  - injection Hp as <-. init_after.
Qed.

Lemma init_category_rejected_bqm from_config (d : dict) v cc config :
  d !! "category" = Some v -> eq_str v "hybrid" = false ->
  LeapHybridSampler.__init__ from_config (SelMapping d) cc config
  = (Raise (ValueError (Msg "the only 'category' this sampler supports is 'hybrid'")),
     SelMapping d).
Proof.
  intros Hd Hv. unfold LeapHybridSampler.__init__. cbv zeta.
  destruct (setdefault "category" (PStr "hybrid") d) as [category d1] eqn:E.
  unfold setdefault in E. rewrite Hd in E. injection E as <- <-.
  rewrite Hv. reflexivity.
Qed.

Lemma init_category_rejected_dqm from_config (d : dict) v cc config :
  d !! "category" = Some v -> eq_str v "hybrid" = false ->
  LeapHybridDQMSampler.__init__ from_config (SelMapping d) cc config
  = (Raise (ValueError (Msg "the only 'category' this sampler supports is 'hybrid'")),
     SelMapping d).
Proof.
  intros Hd Hv. unfold LeapHybridDQMSampler.__init__. cbv zeta.
  destruct (setdefault "category" (PStr "hybrid") d) as [category d1] eqn:E.
  unfold setdefault in E. rewrite Hd in E. injection E as <- <-.
  rewrite Hv. reflexivity.
Qed.

Lemma category_accepted_setdefault (d : dict) :
  category_accepted d = true ->
  eq_str (fst (setdefault "category" (PStr "hybrid") d)) "hybrid" = true.
Proof.
  unfold category_accepted. intros H. rewrite setdefault_fst.
  destruct (d !! "category"); [exact H|]. cbn. apply bool_decide_eq_true_2. reflexivity.
Qed.

Lemma init_type_rejected_bqm from_config (d : dict) v cc config :
  category_accepted d = true ->
  d !! "supported_problem_types__contains" = Some v -> eq_str v "bqm" = false ->
  LeapHybridSampler.__init__ from_config (SelMapping d) cc config
  = (Raise (ValueError (Msg "the only problem type this sampler supports is 'bqm'")),
     SelMapping (snd (setdefault "category" (PStr "hybrid") d))).
Proof.
  intros Hc Hd Hv. unfold LeapHybridSampler.__init__. cbv zeta.
  pose proof (category_accepted_setdefault d Hc) as Hc'.
  pose proof (setdefault_lookup_ne "category" "supported_problem_types__contains"
                (PStr "hybrid") d ltac:(discriminate)) as Hl.
  destruct (setdefault "category" (PStr "hybrid") d) as [category d1].
  cbn [fst snd] in *. rewrite Hc'. cbn [negb].
  destruct (setdefault "supported_problem_types__contains" _ d1) as [ptype d2] eqn:E.
  unfold setdefault in E. rewrite Hl, Hd in E. injection E as <- <-.
  rewrite Hv. reflexivity.
Qed.

Lemma init_type_rejected_dqm from_config (d : dict) v cc config :
  category_accepted d = true ->
  d !! "supported_problem_types__contains" = Some v -> eq_str v "dqm" = false ->
  LeapHybridDQMSampler.__init__ from_config (SelMapping d) cc config
  = (Raise (ValueError (Msg "the only problem type this sampler supports is 'dqm'")),
     SelMapping (snd (setdefault "category" (PStr "hybrid") d))).
Proof.
  intros Hc Hd Hv. unfold LeapHybridDQMSampler.__init__. cbv zeta.
  pose proof (category_accepted_setdefault d Hc) as Hc'.
  pose proof (setdefault_lookup_ne "category" "supported_problem_types__contains"
                (PStr "hybrid") d ltac:(discriminate)) as Hl.
  destruct (setdefault "category" (PStr "hybrid") d) as [category d1].
  cbn [fst snd] in *. rewrite Hc'. cbn [negb].
  destruct (setdefault "supported_problem_types__contains" _ d1) as [ptype d2] eqn:E.
  unfold setdefault in E. rewrite Hl, Hd in E. injection E as <- <-.
  rewrite Hv. reflexivity.
Qed.

Lemma accepts_false kind (d : dict) :
  accepts kind d = false ->
  (exists v, d !! "category" = Some v /\ eq_str v "hybrid" = false) \/
  (category_accepted d = true /\
   exists v, d !! "supported_problem_types__contains" = Some v /\ eq_str v kind = false).
Proof.
  unfold accepts, category_accepted. intros H.
  destruct (d !! "category") as [v|] eqn:Ec.
  - destruct (eq_str v "hybrid") eqn:Ev; [|left; eauto].
    right. split; [reflexivity|]. cbn in H.
    destruct (d !! "supported_problem_types__contains") as [w|]; [eauto|discriminate].
  - right. split; [reflexivity|]. cbn in H.
    destruct (d !! "supported_problem_types__contains") as [w|]; [eauto|discriminate].
Qed.

Lemma resolve_snd kind fc sel' cc config : snd (resolve kind fc sel' cc config) = sel'.
Proof.
  unfold resolve. destruct (fc _ _ _) as [c|e]; [|reflexivity].
  destruct (client_get_solver c) as [s|e]; [|reflexivity].
  destruct (negb _); [reflexivity|]. destruct (negb _); reflexivity.
Qed.

Lemma resolve_ext kind fc1 fc2 sel' cc config :
  fc1 sel' cc (with_client_default config) = fc2 sel' cc (with_client_default config) ->
  resolve kind fc1 sel' cc config = resolve kind fc2 sel' cc config.
Proof. intros H. unfold resolve. rewrite H. reflexivity. Qed.

Lemma resolve_validation kind fc sel' cc config c s :
  fc sel' cc (with_client_default config) = Ok c ->
  client_get_solver c = Ok s ->
  (eq_str (get (solver_properties s) "category") "hybrid" = false \/
   kind ∉ solver_supported_problem_types s ->
   exists msg, resolve kind fc sel' cc config = (Raise (ValueError (Msg msg)), sel')) /\
  (eq_str (get (solver_properties s) "category") "hybrid" = true ->
   kind ∈ solver_supported_problem_types s ->
   resolve kind fc sel' cc config = (Ok (constructed c s), sel')).
Proof.
  intros Hc Hs. unfold resolve. rewrite Hc, Hs. split.
  - intros [Hcat|Hty].
    + rewrite Hcat. cbn [negb]. eexists. reflexivity.
    + destruct (negb (eq_str _ _)); [eexists; reflexivity|].
      rewrite bool_decide_eq_false_2 by exact Hty. cbn [negb]. eexists. reflexivity.
  - intros Hcat Hty. rewrite Hcat, bool_decide_eq_true_2 by exact Hty. reflexivity.
Qed.

Lemma constructor_validates_from kind (init : constructor) :
  (forall fc sel sel' cc config,
      selector_passed kind sel = Some sel' -> init fc sel cc config = resolve kind fc sel' cc config) ->
  (forall fc (d : dict) v cc config,
      d !! "category" = Some v -> eq_str v "hybrid" = false ->
      exists msg, init fc (SelMapping d) cc config
                  = (Raise (ValueError (Msg msg)), SelMapping d) /\
                  msg = "the only 'category' this sampler supports is 'hybrid'"%string) ->
  (forall fc (d : dict) v cc config,
      category_accepted d = true ->
      d !! "supported_problem_types__contains" = Some v -> eq_str v kind = false ->
      exists msg, init fc (SelMapping d) cc config
                  = (Raise (ValueError (Msg msg)),
                     SelMapping (snd (setdefault "category" (PStr "hybrid") d))) /\
                  msg = ("the only problem type this sampler supports is '" ++ kind ++ "'")%string) ->
  constructor_validates kind init.
Proof.
  intros Hacc Hcat Hty sel cc config. split; [|split].
  - intros d -> Ha.
    assert (selector_passed kind (SelMapping d) = Some (SelMapping (d ∪ filter_defaults kind)))
      as Hp by (cbn; rewrite Ha; reflexivity).
    split; [apply lookup_union_defaults|]. split.
    + intros fc. rewrite (Hacc _ _ _ _ _ Hp). apply resolve_snd.
    + intros fc1 fc2 Heq. rewrite !(Hacc _ _ _ _ _ Hp). apply resolve_ext. exact Heq.
  - intros d -> Hrej.
    assert (accepts kind d = false) as Ha.
    { unfold accepts. destruct Hrej as [(v & Hd & Hv)|(v & Hd & Hv)]; rewrite Hd, Hv.
      - reflexivity.
      - apply andb_false_r. }
    destruct (accepts_false kind d Ha) as [(v & Hd & Hv)|(Hc & v & Hd & Hv)].
    + eexists. intros fc. destruct (Hcat fc d v cc config Hd Hv) as (msg & -> & ->).
      reflexivity.
    + eexists. intros fc. destruct (Hty fc d v cc config Hc Hd Hv) as (msg & -> & ->).
      reflexivity.
  - intros fc sel' c s Hp Hc Hs. rewrite (Hacc _ _ _ _ _ Hp).
    apply resolve_validation; assumption.
Qed.

(** Claim C7.  Both constructors validate as [constructor_validates]
    says: defaults are injected only for the keys the caller left out,
    conflicting explicit values are a [ValueError], and a resolved solver
    that is not hybrid or does not support the sampler's problem type is a
    [ValueError]. *)
Theorem C7_constructor_validation :
  constructor_validates "bqm" LeapHybridSampler.__init__ /\
  constructor_validates "dqm" LeapHybridDQMSampler.__init__.
Proof.
  split; apply constructor_validates_from.
  - apply init_accepted_bqm.
  - intros fc d v cc config Hd Hv. eexists. split; [|reflexivity].
    exact (init_category_rejected_bqm fc d v cc config Hd Hv).
  - intros fc d v cc config Hc Hd Hv. eexists. split; [|reflexivity].
    exact (init_type_rejected_bqm fc d v cc config Hc Hd Hv).
  - apply init_accepted_dqm.
  - intros fc d v cc config Hd Hv. eexists. split; [|reflexivity].
    exact (init_category_rejected_dqm fc d v cc config Hd Hv).
  - intros fc d v cc config Hc Hd Hv. eexists. split; [|reflexivity].
    exact (init_type_rejected_dqm fc d v cc config Hc Hd Hv).
Qed.

Lemma filter_defaults_keys kind (d : dict) :
  is_Some ((d ∪ filter_defaults kind) !! "category") /\
  is_Some ((d ∪ filter_defaults kind) !! "supported_problem_types__contains") /\
  is_Some ((d ∪ filter_defaults kind) !! "order_by").
Proof.
  rewrite !lookup_union_defaults. unfold filter_defaults.
  repeat split.
  - destruct (d !! "category"); eauto.
  - destruct (d !! "supported_problem_types__contains"); [eauto|].
    rewrite lookup_insert_ne by discriminate. rewrite lookup_insert_eq. eauto.
  - destruct (d !! "order_by"); [eauto|].
    rewrite lookup_insert_ne by discriminate. rewrite lookup_insert_ne by discriminate.
    rewrite lookup_singleton_eq. eauto.
Qed.

Lemma filter_mutation_from kind (init : constructor) :
  (forall fc sel sel' cc config,
      selector_passed kind sel = Some sel' -> init fc sel cc config = resolve kind fc sel' cc config) ->
  (forall fc (d : dict) v cc config,
      d !! "category" = Some v -> eq_str v "hybrid" = false ->
      exists msg, init fc (SelMapping d) cc config
                  = (Raise (ValueError (Msg msg)), SelMapping d)) ->
  (forall fc (d : dict) v cc config,
      category_accepted d = true ->
      d !! "supported_problem_types__contains" = Some v -> eq_str v kind = false ->
      exists msg, init fc (SelMapping d) cc config
                  = (Raise (ValueError (Msg msg)),
                     SelMapping (snd (setdefault "category" (PStr "hybrid") d)))) ->
  filter_mutation kind init.
Proof.
  intros Hacc Hcat Hty fc d cc config.
  destruct (accepts kind d) eqn:Ha.
  - exists (d ∪ filter_defaults kind).
    assert (selector_passed kind (SelMapping d) = Some (SelMapping (d ∪ filter_defaults kind)))
      as Hp by (cbn; rewrite Ha; reflexivity).
    split; [rewrite (Hacc _ _ _ _ _ Hp); apply resolve_snd|].
    split; [intros k v Hk; apply lookup_union_Some_l; exact Hk|].
    split; [intros _; split; [reflexivity|apply filter_defaults_keys]|].
    split.
    + intros Hc. unfold accepts in Ha. unfold category_accepted in Hc.
      rewrite Hc in Ha. discriminate.
    + discriminate.
  - destruct (accepts_false kind d Ha) as [(v & Hd & Hv)|(Hc & v & Hd & Hv)].
    + destruct (Hcat fc d v cc config Hd Hv) as (msg & Hinit).
      exists d. rewrite Hinit. cbn [fst snd].
      split; [reflexivity|]. split; [auto|]. split; [discriminate|].
      split; [intros _; split; [reflexivity|eauto]|].
      unfold category_accepted. rewrite Hd, Hv. discriminate.
    + destruct (Hty fc d v cc config Hc Hd Hv) as (msg & Hinit).
      exists (d ∪ {["category" := PStr "hybrid"]}). rewrite Hinit. cbn [fst snd].
      split; [rewrite setdefault_union; reflexivity|].
      split; [intros k w Hk; apply lookup_union_Some_l; exact Hk|].
      split; [discriminate|]. split; [rewrite Hc; discriminate|].
      intros _ _. split; [reflexivity|]. split; [|eauto].
      rewrite lookup_union, lookup_singleton_ne by discriminate.
      destruct (d !! "order_by"); reflexivity.
Qed.

(** Claim C10, as amended.  Both constructors mutate a mapping passed as
    the solver argument as [filter_mutation] says: the caller's entries
    are kept; once the filter checks pass, the mapping holds the three
    defaults for the keys the caller had not set, however construction
    ends afterwards; a rejected category leaves the mapping unchanged; a
    rejected problem type leaves it with the category default only. *)
Theorem C10_filter_mutation :
  filter_mutation "bqm" LeapHybridSampler.__init__ /\
  filter_mutation "dqm" LeapHybridDQMSampler.__init__.
Proof.
  split; apply filter_mutation_from.
  - apply init_accepted_bqm.
  - intros fc d v cc config Hd Hv. eexists.
    exact (init_category_rejected_bqm fc d v cc config Hd Hv).
  - intros fc d v cc config Hc Hd Hv. eexists.
    exact (init_type_rejected_bqm fc d v cc config Hc Hd Hv).
  - apply init_accepted_dqm.
  - intros fc d v cc config Hd Hv. eexists.
    exact (init_category_rejected_dqm fc d v cc config Hd Hv).
  - intros fc d v cc config Hc Hd Hv. eexists.
    exact (init_type_rejected_dqm fc d v cc config Hc Hd Hv).
Qed.

(** Claim C10 as stated fails: after the validation error for the filter
    [{'category': 'qpu'}] the mapping is unchanged, so it holds neither
    'supported_problem_types__contains' nor 'order_by', although the
    caller had set neither. *)
Lemma C10_category_rejected_leaves_mapping :
  LeapHybridSampler.__init__ no_connection (SelMapping {["category" := PStr "qpu"]}) true ∅
  = (Raise (ValueError (Msg "the only 'category' this sampler supports is 'hybrid'")),
     SelMapping {["category" := PStr "qpu"]}) /\
  ({["category" := PStr "qpu"]} : dict) !! "supported_problem_types__contains" = None /\
  ({["category" := PStr "qpu"]} : dict) !! "order_by" = None.
Proof. vm_compute. repeat split. Qed.

(** ** The cached properties and parameters *)

Lemma properties_fresh self :
  self__properties self = None ->
  LeapHybridSampler.properties self
  = (Ok (solver_properties (self_solver self)),
     {| self_client := self_client self; self_solver := self_solver self;
        self__properties := Some (solver_properties (self_solver self));
        self__parameters := self__parameters self;
        reads := S (reads self); trace := trace self |}).
Proof. intros H. unfold LeapHybridSampler.properties. rewrite H. reflexivity. Qed.

Lemma parameters_cached self q :
  self__parameters self = Some q -> LeapHybridSampler.parameters self = (Ok q, self).
Proof. intros H. unfold LeapHybridSampler.parameters. rewrite H. reflexivity. Qed.

(** An access to [parameters] with no parameters cached. *)
Lemma parameters_none self :
  self__parameters self = None ->
  LeapHybridSampler.parameters self
  = match LeapHybridSampler.properties self with
    | (Raise e, self1) => (Raise e, self1)
    | (Ok p, self1) =>
        match parameters_of p with
        | Ok q =>
            (Ok q,
             {| self_client := self_client self1; self_solver := self_solver self1;
                self__properties := self__properties self1; self__parameters := Some q;
                reads := reads self1; trace := trace self1 |})
        | Raise e => (Raise e, self1)
        end
    end.
Proof.
  intros Hq. unfold LeapHybridSampler.parameters. rewrite Hq.
  unfold mbind at 1. unfold M_bind at 1.
  destruct (LeapHybridSampler.properties self) as [[p|e] self1]; [|reflexivity].
  unfold parameters_of, lift, mbind, M_bind.
  destruct (getitem p "parameters") as [table|e]; [|reflexivity].
  destruct (py_iter table) as [params|e]; [|reflexivity].
  destruct (mapM_result param_key params) as [keys|e]; reflexivity.
Qed.

(** A first access to [parameters], with the properties cached. *)
Lemma parameters_fresh self p :
  self__properties self = Some p -> self__parameters self = None ->
  LeapHybridSampler.parameters self
  = match parameters_of p with
    | Ok q =>
        (Ok q,
         {| self_client := self_client self; self_solver := self_solver self;
            self__properties := self__properties self; self__parameters := Some q;
            reads := reads self; trace := trace self |})
    | Raise e => (Raise e, self)
    end.
Proof.
  intros Hp Hq. rewrite (parameters_none _ Hq), (properties_cached _ _ Hp). reflexivity.
Qed.

Lemma log_nil self : log [] self = self.
Proof. destruct self. unfold log. cbn. rewrite app_nil_r. reflexivity. Qed.

Lemma cached_once_log evs self : cached_once (log evs self) <-> cached_once self.
Proof. reflexivity. Qed.

Lemma cached_once_properties self :
  cached_once self -> cached_once (snd (LeapHybridSampler.properties self)).
Proof.
  intros [Hr Hq]. destruct (self__properties self) as [p|] eqn:Hp.
  - rewrite (properties_cached _ _ Hp). cbn [snd]. unfold cached_once. rewrite Hp. auto.
  - rewrite (properties_fresh _ Hp). cbn [snd]. unfold cached_once. cbn.
    split; [lia|]. destruct (self__parameters self) as [q|]; [|exact I].
    destruct Hq as (p & Hp' & _). discriminate.
Qed.

Lemma properties_keeps self p :
  self__properties self = Some p ->
  self__properties (snd (LeapHybridSampler.properties self)) = Some p.
Proof. intros Hp. rewrite (properties_cached _ _ Hp). exact Hp. Qed.

Lemma properties_caches self :
  exists p, self__properties (snd (LeapHybridSampler.properties self)) = Some p.
Proof.
  destruct (self__properties self) as [p|] eqn:Hp.
  - exists p. apply properties_keeps. exact Hp.
  - rewrite (properties_fresh _ Hp). eexists. reflexivity.
Qed.

(** [sample] leaves the object as the first access to its properties
    does, with events added to the trace. *)
Lemma sample_state bqm time_limit kwargs self :
  exists evs,
    snd (LeapHybridSampler.sample bqm time_limit kwargs self)
    = log evs (snd (LeapHybridSampler.properties self)).
Proof.
  pose proof (sample_min_time_limit_state (bqm_num_variables bqm) self) as Hs.
  destruct (LeapHybridSampler.sample_min_time_limit (bqm_num_variables bqm) self)
    as [[m|e] self'] eqn:Hm; cbn [snd] in Hs; subst self'.
  - rewrite (sample_run _ _ _ _ _ _ Hm). cbv zeta.
    destruct (negb _); [exists []; rewrite log_nil; reflexivity|].
    destruct (py_lt _ _); [exists []; rewrite log_nil; reflexivity|].
    destruct (_ <? _).
    + rewrite _sample_large_run. cbv zeta.
      destruct (solver_upload_bqm _ _); eexists; reflexivity.
    + rewrite _sample_run. cbv zeta.
      destruct (solver_upload_bqm _ _); eexists; reflexivity.
  - exists []. rewrite log_nil. unfold LeapHybridSampler.sample.
    unfold mbind at 1. unfold M_bind at 1. rewrite Hm. reflexivity.
Qed.

Lemma sample_dqm_state dqm time_limit compressed kwargs self :
  exists evs,
    snd (LeapHybridDQMSampler.sample_dqm dqm time_limit compressed kwargs self) = log evs self \/
    snd (LeapHybridDQMSampler.sample_dqm dqm time_limit compressed kwargs self)
    = log evs (snd (LeapHybridSampler.properties self)).
Proof.
  rewrite sample_dqm_run. cbv zeta.
  destruct time_limit; try (eexists; left; reflexivity).
  pose proof (min_time_limit_state dqm self) as Hs.
  destruct (LeapHybridDQMSampler.min_time_limit dqm self) as [[t|e] self']; cbn [snd] in *.
  - destruct Hs as [-> | ->]; eexists; [left|right]; reflexivity.
  - exists []. rewrite !log_nil. destruct Hs as [-> | ->]; [left|right]; reflexivity.
Qed.

Lemma step_cached a self p :
  cached_once self -> self__properties self = Some p ->
  cached_once (snd (access_step a self)) /\
  self__properties (snd (access_step a self)) = Some p /\
  shows p (fst (access_step a self)).
Proof.
  intros Hinv Hp. destruct a as [| |bqm tl kw|dqm tl comp kw|s]; cbn [access_step].
  - rewrite (properties_cached _ _ Hp). cbn. auto.
  - destruct (self__parameters self) as [q|] eqn:Hq.
    + rewrite (parameters_cached _ _ Hq). cbn [fst snd shows].
      split; [exact Hinv|]. split; [exact Hp|].
      destruct Hinv as [_ Hq']. rewrite Hq in Hq'. destruct Hq' as (p' & Hp' & Hof).
      congruence.
    + rewrite (parameters_fresh _ _ Hp Hq).
      destruct (parameters_of p) as [q|e] eqn:Hof; cbn [fst snd shows].
      * split; [|auto]. destruct Hinv as [Hr _]. unfold cached_once. cbn.
        rewrite Hp in *. split; [exact Hr|]. exists p. auto.
      * auto.
  - destruct (sample_state bqm tl kw self) as [evs Hs].
    destruct (LeapHybridSampler.sample bqm tl kw self) as [r self'].
    cbn [fst snd shows] in *. subst self'.
    rewrite (properties_cached _ _ Hp). cbn [snd]. auto.
  - destruct (sample_dqm_state dqm tl comp kw self) as [evs Hs].
    destruct (LeapHybridDQMSampler.sample_dqm dqm tl comp kw self) as [r self'].
    cbn [fst snd shows] in *. rewrite (properties_cached _ _ Hp) in Hs. cbn [snd] in Hs.
    assert (self' = log evs self) as -> by (destruct Hs; assumption). auto.
  - cbn. auto.
Qed.

Lemma step_uncached a self :
  cached_once self -> self__properties self = None ->
  cached_once (snd (access_step a self)) /\
  ((self__properties (snd (access_step a self)) = None /\
    forall p, shows p (fst (access_step a self))) \/
   (exists p, self__properties (snd (access_step a self)) = Some p /\
              shows p (fst (access_step a self)))).
Proof.
  intros Hinv Hp.
  assert (self__parameters self = None) as Hq.
  { destruct Hinv as [_ Hq]. destruct (self__parameters self); [|reflexivity].
    destruct Hq as (p & Hp' & _). congruence. }
  destruct a as [| |bqm tl kw|dqm tl comp kw|s]; cbn [access_step].
  - pose proof (cached_once_properties self Hinv) as Hinv'.
    rewrite (properties_fresh _ Hp) in *. cbn [fst snd shows] in *.
    split; [exact Hinv'|]. right. eexists. split; reflexivity.
  - pose proof (cached_once_properties self Hinv) as Hinv'.
    rewrite (parameters_none _ Hq).
    rewrite (properties_fresh _ Hp) in *. cbn [snd] in Hinv'.
    set (p := solver_properties (self_solver self)) in *.
    destruct (parameters_of p) as [q|e] eqn:Hof; cbn [fst snd shows].
    + split; [|right; exists p; split; [reflexivity|auto]].
      destruct Hinv' as [Hr _]. unfold cached_once. cbn. cbn in Hr.
      split; [exact Hr|]. exists p. auto.
    + split; [exact Hinv'|]. right. exists p. split; [reflexivity|auto].
  - destruct (sample_state bqm tl kw self) as [evs Hs].
    destruct (LeapHybridSampler.sample bqm tl kw self) as [r self'].
    cbn [fst snd shows] in *. subst self'.
    split; [apply cached_once_log, cached_once_properties; exact Hinv|].
    right. destruct (properties_caches self) as [p Hp']. exists p. split; [exact Hp'|exact I].
  - destruct (sample_dqm_state dqm tl comp kw self) as [evs Hs].
    destruct (LeapHybridDQMSampler.sample_dqm dqm tl comp kw self) as [r self'].
    cbn [fst snd shows] in *. destruct Hs as [-> | ->].
    + split; [exact Hinv|]. left. split; [exact Hp|intros; exact I].
    + split; [apply cached_once_log, cached_once_properties; exact Hinv|].
      right. destruct (properties_caches self) as [p Hp']. exists p. split; [exact Hp'|exact I].
  - cbn. split; [exact Hinv|]. left. split; [exact Hp|intros; exact I].
Qed.

Lemma accesses_cached l : forall self p,
  cached_once self -> self__properties self = Some p ->
  Forall (shows p) (fst (accesses l self)) /\
  cached_once (snd (accesses l self)) /\
  self__properties (snd (accesses l self)) = Some p.
Proof.
  induction l as [|a l IH]; intros self p Hinv Hp; [cbn; auto|].
  cbn [accesses].
  destruct (step_cached a self p Hinv Hp) as (Hinv1 & Hp1 & Hshow).
  destruct (access_step a self) as [o self1]. cbn [fst snd] in *.
  destruct (IH self1 p Hinv1 Hp1) as (Hall & Hinv2 & Hp2).
  destruct (accesses l self1) as [os self2]. cbn [fst snd] in *.
  split; [constructor; assumption|]. auto.
Qed.

Lemma cached_once_reads self : cached_once self -> (reads self <= 1)%nat.
Proof. intros [Hr _]. destruct (self__properties self); lia. Qed.

Lemma accesses_lifetime l : forall self,
  cached_once self ->
  exists p,
    Forall (shows p) (fst (accesses l self)) /\
    cached_once (snd (accesses l self)).
Proof.
  induction l as [|a l IH]; intros self Hinv; [exists ∅; cbn; auto|].
  destruct (self__properties self) as [p|] eqn:Hp.
  - exists p. destruct (accesses_cached (a :: l) self p Hinv Hp) as (H1 & H2 & _). auto.
  - cbn [accesses].
    destruct (step_uncached a self Hinv Hp) as (Hinv1 & [(Hp1 & Hshow)|(p & Hp1 & Hshow)]);
      destruct (access_step a self) as [o self1]; cbn [fst snd] in *.
    + destruct (IH self1 Hinv1) as (p & Hall & Hinv2).
      destruct (accesses l self1) as [os self2]. cbn [fst snd] in *.
      exists p. split; [constructor; [apply Hshow|exact Hall]|exact Hinv2].
    + destruct (accesses_cached l self1 p Hinv1 Hp1) as (Hall & Hinv2 & _).
      destruct (accesses l self1) as [os self2]. cbn [fst snd] in *.
      exists p. split; [constructor; assumption|exact Hinv2].
Qed.

Lemma parameters_of_table (p : dict) table :
  p !! "parameters" = Some (PDict table) ->
  exists q, parameters_of p = Ok q /\
            forall k, q !! k = if decide (k ∈ table.*1) then Some ["parameters"%string] else None.
Proof.
  intros Hp. unfold parameters_of, getitem. rewrite Hp. cbn [py_iter].
  assert (mapM_result param_key ((fun kv : string * pyval => PStr (fst kv)) <$> table)
          = Ok (table.*1)) as ->.
  { clear Hp. induction table as [|kv table IH]; [reflexivity|].
    rewrite !fmap_cons. cbn [mapM_result param_key]. rewrite IH. reflexivity. }
  eexists. split; [reflexivity|]. intros k.
  destruct (list_to_map _ !! k) as [v|] eqn:E.
  - apply elem_of_list_to_map_2 in E. rewrite elem_of_reverse in E.
    apply list_elem_of_fmap in E as (k' & Heq & Hin). injection Heq as <- <-.
    rewrite decide_True by exact Hin. reflexivity.
  - apply not_elem_of_list_to_map_2 in E.
    rewrite fmap_reverse, elem_of_reverse, <- list_fmap_compose in E.
    rewrite decide_False; [reflexivity|]. intros Hin. apply E.
    apply list_elem_of_fmap in Hin as ([k' v'] & -> & Hin).
    apply list_elem_of_fmap. exists k'. split; [reflexivity|].
    apply list_elem_of_fmap. exists (k', v'). auto.
Qed.

(** Claim C8.  The two samplers share their [properties] and [parameters]
    getters.  A cached mapping is returned as it is, with the object
    unchanged (no read of the solver); a first access to [properties]
    reads the solver once and caches the copy; a first access to
    [parameters] maps every keyword of the properties' parameter table to
    the list ['parameters'] and caches that.  Over any sequence of
    accesses, sampling calls and outside changes to the solver, the
    solver's properties are read at most once, every access to
    [properties] shows one and the same mapping, and every access to
    [parameters] shows the table made from it; on a constructed sampler
    that mapping is the cached one and the solver is not read again. *)
Theorem C8_properties_and_parameters_cached :
  (LeapHybridDQMSampler.properties = LeapHybridSampler.properties /\
   LeapHybridDQMSampler.parameters = LeapHybridSampler.parameters) /\
  (forall self p,
      self__properties self = Some p -> LeapHybridSampler.properties self = (Ok p, self)) /\
  (forall self,
      self__properties self = None ->
      LeapHybridSampler.properties self
      = (Ok (solver_properties (self_solver self)),
         {| self_client := self_client self; self_solver := self_solver self;
            self__properties := Some (solver_properties (self_solver self));
            self__parameters := self__parameters self;
            reads := S (reads self); trace := trace self |})) /\
  (forall self q,
      self__parameters self = Some q -> LeapHybridSampler.parameters self = (Ok q, self)) /\
  (forall self p table,
      self__properties self = Some p -> self__parameters self = None ->
      p !! "parameters" = Some (PDict table) ->
      exists q,
        LeapHybridSampler.parameters self
        = (Ok q,
           {| self_client := self_client self; self_solver := self_solver self;
              self__properties := self__properties self; self__parameters := Some q;
              reads := reads self; trace := trace self |}) /\
        forall k, q !! k = if decide (k ∈ table.*1) then Some ["parameters"%string] else None) /\
  (forall c s, cached_once (new_self c s) /\ cached_once (constructed c s)) /\
  (forall self l,
      cached_once self ->
      (reads (snd (accesses l self)) <= 1)%nat /\
      (exists p, Forall (shows p) (fst (accesses l self))) /\
      (forall p, self__properties self = Some p ->
                 Forall (shows p) (fst (accesses l self)) /\
                 reads (snd (accesses l self)) = reads self)).
Proof.
  split; [split; reflexivity|].
  split; [apply properties_cached|].
  split; [apply properties_fresh|].
  split; [apply parameters_cached|].
  split.
  - intros self p table Hp Hq Ht.
    destruct (parameters_of_table p table Ht) as (q & Hof & Hk).
    exists q. rewrite (parameters_fresh _ _ Hp Hq), Hof. auto.
  - split; [intros c s; split; split; cbn; auto|].
    intros self l Hinv.
    destruct (accesses_lifetime l self Hinv) as (p & Hall & Hinv').
    split; [apply cached_once_reads; exact Hinv'|].
    split; [eauto|].
    intros p0 Hp0. destruct (accesses_cached l self p0 Hinv Hp0) as (Hall0 & [Hr _] & Hp').
    split; [exact Hall0|]. rewrite Hp' in Hr. destruct Hinv as [Hr0 _].
    rewrite Hp0 in Hr0. lia.
Qed.

(** ** A concrete solver: the claims at explicit inputs *)

Lemma demo_min_time_limit n k :
  LeapHybridSampler.sample_min_time_limit k (demo_self n)
  = (Ok (curve_interp (inject_Z k) docstring_curve), demo_self n).
Proof.
  apply (sample_min_time_limit_curve (demo_self n) demo_properties docstring_curve k);
    [reflexivity|reflexivity|discriminate].
Qed.

(** Claim C2 against the code.  For the docstring's meal model the minimum
    time limit is 5 seconds, yet [sample_dqm] with [time_limit=1] raises
    nothing: it submits the problem with time limit 1 and returns the
    relabelled sample set. *)
Theorem C2_sample_dqm_submits_below_minimum :
  LeapHybridDQMSampler.min_time_limit demo_dqm (demo_self 3) = (Ok 5%Q, demo_self 3) /\
  LeapHybridDQMSampler.sample_dqm demo_dqm (PNum 1) false ∅ (demo_self 3)
  = (Ok {| ss_variables := dqm_variables demo_dqm;
           ss_records := ss_records (demo_sampleset 3) |},
     log [EvToFile false true;
          EvSampleDqm (to_file demo_dqm false true) {["time_limit" := PNum 1]}]
         (demo_self 3)).
Proof. split; vm_compute; reflexivity. Qed.

(** Claim C1 on a three-variable model (minimum 0.3 seconds): a string, a
    time limit of 0.1 seconds and one of 7 seconds. *)
Lemma C1_witness :
  LeapHybridSampler.sample (demo_bqm 3) (PStr "soon") ∅ (demo_self 3)
  = (Raise (TypeError (Msg "time limit must be a number")), demo_self 3) /\
  LeapHybridSampler.sample (demo_bqm 3) (PNum 0.1) ∅ (demo_self 3)
  = (Raise (ValueError (Fmt "time limit for problem size {} must be at least {}"
                            [inject_Z (bqm_num_variables (demo_bqm 3));
                             curve_interp (inject_Z (bqm_num_variables (demo_bqm 3)))
                                          docstring_curve])),
     demo_self 3) /\
  trace (snd (LeapHybridSampler.sample (demo_bqm 3) (PNum 7) ∅ (demo_self 3)))
  = [EvFileView 2 false; EvUploadBqm (open_FileView (demo_bqm 3) 2 false);
     EvSampleBqm "problem-1" {["time_limit" := PNum 7]}].
Proof.
  pose proof (demo_min_time_limit 3 (bqm_num_variables (demo_bqm 3))) as Hm.
  split; [|split].
  - destruct (C1_sample_time_limit_checks (demo_bqm 3) (PStr "soon") ∅ _ _ _ Hm)
      as (_ & H & _).
    apply H; [discriminate|reflexivity].
  - destruct (C1_sample_time_limit_checks (demo_bqm 3) (PNum 0.1) ∅ _ _ _ Hm)
      as (_ & _ & H & _).
    apply (H 0.1%Q); [reflexivity|vm_compute; reflexivity].
  - destruct (C1_sample_time_limit_checks (demo_bqm 3) (PNum 7) ∅ _ _ _ Hm)
      as (_ & _ & _ & H).
    destruct (H 7%Q eq_refl) as [_ Ht]; [vm_compute; discriminate|].
    rewrite Ht. reflexivity.
Defined.

Lemma docstring_curve_increasing : increasing docstring_curve.
Proof.
  unfold increasing, docstring_curve. cbn.
  repeat (constructor; [|repeat (constructor; [reflexivity|]); try constructor]);
    constructor.
Qed.



(** Claim C5 on a model of 10,001 variables labelled 1 to 10,001, and on
    one of three variables. *)
Lemma C5_witness :
  LeapHybridSampler.sample (demo_bqm large_size) PNone ∅ (demo_self large_size)
  = (Ok {| ss_variables := bqm_variables (demo_bqm large_size);
           ss_records := ss_records (demo_sampleset large_size) |},
     log [EvFileView 2 true;
          EvUploadBqm (open_FileView (demo_bqm large_size) 2 true);
          EvSampleBqm "problem-1"
            {["time_limit" :=
                PNum (curve_interp (inject_Z (bqm_num_variables (demo_bqm large_size)))
                                   docstring_curve)]}]
         (demo_self large_size)) /\
  LeapHybridSampler.sample (demo_bqm 3) (PNum 7) ∅ (demo_self 3)
  = (Ok (demo_sampleset 3),
     log [EvFileView 2 false;
          EvUploadBqm (open_FileView (demo_bqm 3) 2 false);
          EvSampleBqm "problem-1" {["time_limit" := PNum 7]}]
         (demo_self 3)).
Proof.
  split.
  - pose proof (demo_min_time_limit large_size (bqm_num_variables (demo_bqm large_size))) as Hm.
    destruct (C5_large_and_small_paths (demo_bqm large_size) PNone ∅ _ _ _ Hm
                (or_introl eq_refl)) as [Hlarge _].
    destruct Hlarge as [_ H].
    + unfold bqm_num_variables, demo_bqm, large_size. cbn [bqm_variables].
      rewrite length_fmap, length_seq. reflexivity.
    + apply (H "problem-1"%string (demo_sampleset large_size)); [reflexivity|reflexivity|].
      unfold demo_bqm, demo_sampleset. cbn [ss_variables bqm_variables].
      rewrite length_fmap, length_seq. reflexivity.
  - pose proof (demo_min_time_limit 3 (bqm_num_variables (demo_bqm 3))) as Hm.
    destruct (C5_large_and_small_paths (demo_bqm 3) (PNum 7) ∅ _ _ _ Hm) as [_ Hsmall].
    + right. exists 7%Q. split; [reflexivity|vm_compute; discriminate].
    + destruct Hsmall as [_ H]; [vm_compute; discriminate|].
      apply (H "problem-1"%string). reflexivity.
Defined.

(** Claim C6 on the three-variable model and on the meal model. *)
Lemma C6_witness :
  (trace (snd (LeapHybridSampler.sample (demo_bqm 3) PNone ∅ (demo_self 3)))
   = [EvFileView 2 false; EvUploadBqm (open_FileView (demo_bqm 3) 2 false);
      EvSampleBqm "problem-1"
        {["time_limit" :=
            PNum (curve_interp (inject_Z (bqm_num_variables (demo_bqm 3))) docstring_curve)]}]) /\
  (LeapHybridDQMSampler.min_time_limit demo_dqm (demo_self 3)
   = (Ok (py_max 5 (curve_interp (density demo_dqm) docstring_curve)), demo_self 3) /\
   trace (snd (LeapHybridDQMSampler.sample_dqm demo_dqm PNone false ∅ (demo_self 3)))
   = [EvToFile false true;
      EvSampleDqm (to_file demo_dqm false true)
        {["time_limit" := PNum (py_max 5 (curve_interp (density demo_dqm) docstring_curve))]}]).
Proof.
  destruct (C6_default_time_limit_is_minimum (demo_self 3) demo_properties docstring_curve)
    as [Hbqm Hdqm]; [reflexivity|reflexivity|discriminate|].
  split.
  - destruct (Hbqm (demo_bqm 3) ∅) as (_ & _ & Ht). rewrite Ht. reflexivity.
  - destruct (Hdqm demo_dqm false ∅) as (Hm & Hs); [reflexivity|].
    split; [exact Hm|]. rewrite Hs. reflexivity.
Defined.

(** Claim C7 on a solver for discrete models only: the BQM sampler refuses
    it, the DQM sampler accepts it, and a filter asking the BQM sampler
    for 'dqm' is refused before any connection. *)
Lemma C7_witness :
  (exists msg,
      LeapHybridSampler.__init__ dqm_only_connection SelNone true ∅
      = (Raise (ValueError (Msg msg)), SelMapping (filter_defaults "bqm"))) /\
  LeapHybridDQMSampler.__init__ dqm_only_connection SelNone true ∅
  = (Ok (constructed {| client_get_solver := Ok dqm_only_solver |} dqm_only_solver),
     SelMapping (filter_defaults "dqm")) /\
  (exists msg, forall fc,
      fst (LeapHybridSampler.__init__ fc
             (SelMapping {["supported_problem_types__contains" := PStr "dqm"]}) true ∅)
      = Raise (ValueError (Msg msg))).
Proof.
  destruct C7_constructor_validation as [Hbqm Hdqm].
  split; [|split].
  - destruct (Hbqm SelNone true ∅) as (_ & _ & H).
    destruct (H dqm_only_connection (SelMapping (filter_defaults "bqm"))
                {| client_get_solver := Ok dqm_only_solver |} dqm_only_solver
                eq_refl eq_refl eq_refl) as [Hfail _].
    apply Hfail. right. cbn [solver_supported_problem_types dqm_only_solver].
    intros Hin. apply list_elem_of_singleton in Hin. discriminate.
  - destruct (Hdqm SelNone true ∅) as (_ & _ & H).
    destruct (H dqm_only_connection (SelMapping (filter_defaults "dqm"))
                {| client_get_solver := Ok dqm_only_solver |} dqm_only_solver
                eq_refl eq_refl eq_refl) as [_ Hok].
    apply Hok; [reflexivity|]. apply list_elem_of_here.
  - destruct (Hbqm (SelMapping {["supported_problem_types__contains" := PStr "dqm"]}) true ∅)
      as (_ & H & _).
    apply (H _ eq_refl). right. exists (PStr "dqm"). split; reflexivity.
Defined.

(** Claim C8 on a constructed sampler whose solver is replaced between two
    accesses. *)
Lemma C8_witness :
  (reads (snd (accesses [GetProperties; SolverChanges dqm_only_solver; GetProperties;
                         GetParameters; CallSample (demo_bqm 3) PNone ∅; GetParameters]
                        (demo_self 3))) <= 1)%nat /\
  Forall (shows demo_properties)
         (fst (accesses [GetProperties; SolverChanges dqm_only_solver; GetProperties;
                         GetParameters; CallSample (demo_bqm 3) PNone ∅; GetParameters]
                        (demo_self 3))).
Proof.
  destruct C8_properties_and_parameters_cached as (_ & _ & _ & _ & _ & Hinv & Hlife).
  destruct (Hinv (demo_client 3) (demo_solver 3)) as [_ Hc].
  destruct (Hlife (demo_self 3)
              [GetProperties; SolverChanges dqm_only_solver; GetProperties;
               GetParameters; CallSample (demo_bqm 3) PNone ∅; GetParameters] Hc)
    as (Hr & _ & Hp).
  split; [exact Hr|]. apply (Hp demo_properties). reflexivity.
Defined.

(** Claim C10, as amended, on a filter that sets 'order_by' only. *)
Lemma C10_witness :
  exists d' : dict,
    snd (LeapHybridSampler.__init__ no_connection
           (SelMapping {["order_by" := PStr "avg_load"]}) true ∅) = SelMapping d' /\
    d' !! "order_by" = Some (PStr "avg_load") /\
    d' = {["order_by" := PStr "avg_load"]} ∪ filter_defaults "bqm".
Proof.
  destruct C10_filter_mutation as [Hbqm _].
  destruct (Hbqm no_connection {["order_by" := PStr "avg_load"]} true ∅)
    as (d' & Hs & Hkeep & Hacc & _).
  exists d'. split; [exact Hs|]. split.
  - apply Hkeep. reflexivity.
  - apply Hacc. reflexivity.
Defined.

(** ** Errors and edge cases of sampling *)

Lemma sample_raises bqm time_limit kwargs self e self' :
  LeapHybridSampler.sample_min_time_limit (bqm_num_variables bqm) self = (Raise e, self') ->
  LeapHybridSampler.sample bqm time_limit kwargs self = (Raise e, self').
Proof.
  intros H. unfold LeapHybridSampler.sample. cbv zeta.
  unfold mbind at 1. unfold M_bind at 1. rewrite H. reflexivity.
Qed.

Lemma properties_result self : exists props,
  LeapHybridSampler.properties self = (Ok props, snd (LeapHybridSampler.properties self)).
Proof.
  unfold LeapHybridSampler.properties. destruct (self__properties self); eexists; reflexivity.
Qed.

(** Extra X1.  When the solver's properties have no entry
    [minimum_time_limit], [sample] raises [KeyError] for that key whatever
    the model, the time limit and the other arguments are; the properties
    are cached by then and nothing is serialised or sent to the solver. *)
Theorem X1_sample_without_curve bqm time_limit kwargs self props self' :
  LeapHybridSampler.properties self = (Ok props, self') ->
  props !! "minimum_time_limit" = None ->
  LeapHybridSampler.sample bqm time_limit kwargs self
  = (Raise (KeyError "minimum_time_limit"), self') /\
  trace self' = trace self.
Proof.
  intros Hp Hk. split.
  - apply sample_raises. unfold LeapHybridSampler.sample_min_time_limit.
    unfold mbind at 1. unfold M_bind at 1. rewrite Hp.
    unfold mbind at 1. unfold M_bind at 1. unfold lift, getitem. rewrite Hk. reflexivity.
  - pose proof (properties_trace self) as Ht. rewrite Hp in Ht. exact Ht.
Qed.

(** Extra X2.  With an empty curve under [minimum_time_limit], unpacking
    the transposed curve fails: [sample] raises a [ValueError] for every
    model and time limit.  For a discrete model with at least one variable
    the empty array has no second axis: [min_time_limit], and [sample_dqm]
    without a time limit, raise an [IndexError].  Nothing is sent to the
    solver. *)
Theorem X2_empty_curve self props self' :
  LeapHybridSampler.properties self = (Ok props, self') ->
  props !! "minimum_time_limit" = Some (PList []) ->
  (forall bqm time_limit kwargs, exists msg,
      LeapHybridSampler.sample bqm time_limit kwargs self
      = (Raise (ValueError (Msg msg)), self')) /\
  (forall dqm, dqm_num_variables dqm <> 0 -> exists msg,
      LeapHybridDQMSampler.min_time_limit dqm self
      = (Raise (IndexError (Msg msg)), self') /\
      forall compressed kwargs,
        LeapHybridDQMSampler.sample_dqm dqm PNone compressed kwargs self
        = (Raise (IndexError (Msg msg)), self')) /\
  trace self' = trace self.
Proof.
  intros Hp Hk. split; [|split].
  - intros bqm time_limit kwargs. eexists.
    apply sample_raises. unfold LeapHybridSampler.sample_min_time_limit.
    unfold mbind at 1. unfold M_bind at 1. rewrite Hp.
    unfold mbind, M_bind, lift, getitem. rewrite Hk. reflexivity.
  - intros dqm Hn. eexists.
    match goal with |- ?L = ?R /\ _ => assert (L = R) as Hm end.
    { unfold LeapHybridDQMSampler.min_time_limit.
      rewrite bool_decide_eq_false_2 by exact Hn.
      unfold mbind at 1. unfold M_bind at 1. cbn [mret M_ret].
      change LeapHybridDQMSampler.properties with LeapHybridSampler.properties.
      unfold mbind at 1. unfold M_bind at 1. rewrite Hp.
      unfold mbind, M_bind, lift, getitem. rewrite Hk. reflexivity. }
    split; [exact Hm|].
    intros compressed kwargs. rewrite sample_dqm_run. cbv zeta. rewrite Hm. reflexivity.
  - pose proof (properties_trace self) as Ht. rewrite Hp in Ht. exact Ht.
Qed.

(** Extra X3.  For a discrete model without variables the density divides
    by zero: [min_time_limit] raises [ZeroDivisionError] before the
    properties are read, so the sampler is left as it was, and [sample_dqm]
    without a time limit raises the same error without serialising the
    model. *)
Theorem X3_dqm_without_variables dqm self :
  dqm_num_variables dqm = 0 ->
  LeapHybridDQMSampler.min_time_limit dqm self = (Raise ZeroDivisionError, self) /\
  (forall compressed kwargs,
      LeapHybridDQMSampler.sample_dqm dqm PNone compressed kwargs self
      = (Raise ZeroDivisionError, self)).
Proof.
  intros Hn.
  assert (LeapHybridDQMSampler.min_time_limit dqm self = (Raise ZeroDivisionError, self)) as Hm.
  { unfold LeapHybridDQMSampler.min_time_limit.
    rewrite bool_decide_eq_true_2 by exact Hn. reflexivity. }
  split; [exact Hm|].
  intros compressed kwargs. rewrite sample_dqm_run. cbv zeta. rewrite Hm. reflexivity.
Qed.

Lemma sample_valid bqm time_limit kwargs self m self' :
  LeapHybridSampler.sample_min_time_limit (bqm_num_variables bqm) self = (Ok m, self') ->
  valid_time_limit time_limit m ->
  LeapHybridSampler.sample bqm time_limit kwargs self
  = (if 10000 <? bqm_num_variables bqm
     then LeapHybridSampler._sample_large bqm
            (<["time_limit" := effective_time_limit time_limit m]> kwargs)
     else LeapHybridSampler._sample bqm
            (<["time_limit" := effective_time_limit time_limit m]> kwargs)) self'.
Proof.
  intros Hm Hvalid. rewrite (sample_run _ _ _ _ _ _ Hm). cbv zeta.
  unfold LeapHybridSampler._INTEGER_BQM_SIZE_THRESHOLD, effective_time_limit.
  destruct Hvalid as [->|(t & Ht & Hle)].
  - cbn [is_Number negb]. unfold py_lt. cbn [num_value].
    assert (Qltb m m = false) as -> by (apply Qltb_false; lra).
    destruct (10000 <? _); reflexivity.
  - assert (match time_limit with PNone => PNum m | _ => time_limit end = time_limit) as ->
        by (destruct time_limit; try discriminate; reflexivity).
    assert (is_Number time_limit = true) as -> by (apply is_Number_num_value; eauto).
    unfold py_lt. rewrite Ht. cbn [negb].
    assert (Qltb t m = false) as -> by (apply Qltb_false; exact Hle).
    destruct (10000 <? _); reflexivity.
Qed.

(** Extra X4.  Once the time limit has passed the checks of [sample], an
    error raised by the upload is raised by [sample] and no sampling request
    is made; an error raised by the sampling request after a successful
    upload is raised by [sample] as it is.  In both cases the file view was
    opened once, with labels ignored exactly above 10,000 variables. *)
Theorem X4_sample_propagates_solver_errors bqm time_limit kwargs self m self' :
  LeapHybridSampler.sample_min_time_limit (bqm_num_variables bqm) self = (Ok m, self') ->
  valid_time_limit time_limit m ->
  let large := 10000 <? bqm_num_variables bqm in
  let fv := open_FileView bqm 2 large in
  let params := <["time_limit" := effective_time_limit time_limit m]> kwargs in
  (forall e,
      solver_upload_bqm (self_solver self) fv = Raise e ->
      LeapHybridSampler.sample bqm time_limit kwargs self
      = (Raise e, log [EvFileView 2 large; EvUploadBqm fv] self')) /\
  (forall problem_id e,
      solver_upload_bqm (self_solver self) fv = Ok problem_id ->
      solver_sample_bqm (self_solver self) problem_id params = Raise e ->
      LeapHybridSampler.sample bqm time_limit kwargs self
      = (Raise e,
         log [EvFileView 2 large; EvUploadBqm fv; EvSampleBqm problem_id params] self')).
Proof.
  intros Hm Hvalid. cbv zeta.
  pose proof (sample_min_time_limit_solver _ _ _ _ Hm) as Hsolver.
  rewrite (sample_valid _ _ _ _ _ _ Hm Hvalid).
  split.
  - intros e Hup. destruct (10000 <? bqm_num_variables bqm);
      [rewrite _sample_large_run|rewrite _sample_run]; cbv zeta;
      rewrite Hsolver, Hup; reflexivity.
  - intros problem_id e Hup Hs. destruct (10000 <? bqm_num_variables bqm);
      [rewrite _sample_large_run|rewrite _sample_run]; cbv zeta;
      rewrite Hsolver, Hup, Hs; reflexivity.
Qed.

(** Extra X5.  An error raised by the solver's [sample_dqm] is raised by
    the sampler's [sample_dqm] as it is, after the model was written to a
    file once with labels ignored, both for a given time limit and for the
    computed minimum. *)
Theorem X5_sample_dqm_propagates_solver_errors dqm compressed kwargs self e :
  let f := to_file dqm compressed true in
  (forall time_limit,
      time_limit <> PNone ->
      solver_sample_dqm (self_solver self) f {["time_limit" := time_limit]} = Raise e ->
      LeapHybridDQMSampler.sample_dqm dqm time_limit compressed kwargs self
      = (Raise e,
         log [EvToFile compressed true; EvSampleDqm f {["time_limit" := time_limit]}] self)) /\
  (forall t self',
      LeapHybridDQMSampler.min_time_limit dqm self = (Ok t, self') ->
      solver_sample_dqm (self_solver self') f {["time_limit" := PNum t]} = Raise e ->
      LeapHybridDQMSampler.sample_dqm dqm PNone compressed kwargs self
      = (Raise e,
         log [EvToFile compressed true; EvSampleDqm f {["time_limit" := PNum t]}] self')).
Proof.
  cbv zeta. split.
  - intros time_limit Hne Hs. rewrite sample_dqm_run. cbv zeta.
    destruct time_limit; try contradiction; rewrite Hs; reflexivity.
  - intros t self' Hm Hs. rewrite sample_dqm_run. cbv zeta. rewrite Hm, Hs. reflexivity.
Qed.

Lemma relabel_by_index (vars : list label) (idx : list nat) records :
  Forall (fun i => (i < length vars)%nat) idx ->
  relabel_variables {| ss_variables := (fun i => LInt (Z.of_nat i)) <$> idx;
                       ss_records := records |}
                    (enumerate_dict vars)
  = Ok {| ss_variables := labels_at vars idx; ss_records := records |}.
Proof.
  intros Hidx. unfold relabel_variables. cbn [ss_variables ss_records].
  rewrite bool_decide_eq_false_2.
  - f_equal. f_equal. unfold labels_at. rewrite <- list_fmap_compose.
    apply list_fmap_ext. intros k i Hk. cbn. rewrite enumerate_dict_lookup.
    destruct (vars !! i); reflexivity.
  - rewrite Exists_exists. intros (v & Hin & _ & Hout). apply Hout.
    apply list_elem_of_fmap in Hin as (i & -> & Hi).
    rewrite Forall_forall in Hidx. specialize (Hidx i Hi).
    apply elem_of_dom. rewrite enumerate_dict_lookup. apply lookup_lt_is_Some. exact Hidx.
Qed.

Lemma vars_lookup (vars : list label) i : (i < length vars)%nat -> exists v, vars !! i = Some v.
Proof. intros H. apply lookup_lt_is_Some in H. destruct H as [v Hv]. eauto. Qed.

Lemma labels_at_all (vars : list label) : labels_at vars (seq 0 (length vars)) = vars.
Proof.
  unfold labels_at. apply list_eq. intros i. rewrite list_lookup_fmap.
  destruct (vars !! i) as [v|] eqn:E.
  - apply lookup_lt_Some in E as Hlt. rewrite lookup_seq_lt by exact Hlt.
    cbn. rewrite E. reflexivity.
  - apply lookup_ge_None in E as Hge. rewrite lookup_seq_ge by exact Hge. reflexivity.
Qed.

(** Extra X6.  Above 10,000 variables, when the solver answers over any
    list of integer labels that are indices of the model's variables, in any
    order and possibly not all of them, [sample] returns the same records
    with each integer label replaced by the variable at that index. *)
Theorem X6_large_path_relabels_by_index bqm time_limit kwargs self m self'
    problem_id idx records :
  LeapHybridSampler.sample_min_time_limit (bqm_num_variables bqm) self = (Ok m, self') ->
  valid_time_limit time_limit m ->
  10000 < bqm_num_variables bqm ->
  let fv := open_FileView bqm 2 true in
  let params := <["time_limit" := effective_time_limit time_limit m]> kwargs in
  solver_upload_bqm (self_solver self) fv = Ok problem_id ->
  solver_sample_bqm (self_solver self) problem_id params
  = Ok {| ss_variables := (fun i => LInt (Z.of_nat i)) <$> idx; ss_records := records |} ->
  Forall (fun i => (i < length (bqm_variables bqm))%nat) idx ->
  LeapHybridSampler.sample bqm time_limit kwargs self
  = (Ok {| ss_variables := labels_at (bqm_variables bqm) idx; ss_records := records |},
     log [EvFileView 2 true; EvUploadBqm fv; EvSampleBqm problem_id params] self') /\
  (forall k i, idx !! k = Some i ->
               labels_at (bqm_variables bqm) idx !! k = bqm_variables bqm !! i).
Proof.
  intros Hm Hvalid Hlarge. cbv zeta. intros Hup Hs Hidx.
  pose proof (sample_min_time_limit_solver _ _ _ _ Hm) as Hsolver.
  split.
  - rewrite (sample_valid _ _ _ _ _ _ Hm Hvalid).
    assert ((10000 <? bqm_num_variables bqm) = true) as -> by (apply Z.ltb_lt; exact Hlarge).
    rewrite _sample_large_run. cbv zeta. rewrite Hsolver, Hup, Hs.
    rewrite (relabel_by_index _ _ _ Hidx). reflexivity.
  - intros k i Hk. unfold labels_at. rewrite list_lookup_fmap, Hk. cbn.
    rewrite Forall_forall in Hidx.
    assert (i ∈ idx) as Hin by (eapply list_elem_of_lookup_2; exact Hk).
    destruct (vars_lookup (bqm_variables bqm) i (Hidx i Hin)) as [v Hv].
    rewrite Hv. reflexivity.
Qed.

(** Extra X7.  [sample_dqm] always writes the model without labels, and
    when the solver answers over integer labels that are indices of the
    model's variables, it returns the same records with each index replaced
    by the variable at that index, for a given time limit and for the
    computed minimum; an answer over all indices in order gets back exactly
    the model's variables. *)
Theorem X7_sample_dqm_label_round_trip dqm compressed kwargs self idx records :
  Forall (fun i => (i < length (dqm_variables dqm))%nat) idx ->
  let f := to_file dqm compressed true in
  let answer := {| ss_variables := (fun i => LInt (Z.of_nat i)) <$> idx;
                   ss_records := records |} in
  let relabelled := {| ss_variables := labels_at (dqm_variables dqm) idx;
                       ss_records := records |} in
  df_labels f = None /\
  (forall time_limit,
      time_limit <> PNone ->
      solver_sample_dqm (self_solver self) f {["time_limit" := time_limit]} = Ok answer ->
      LeapHybridDQMSampler.sample_dqm dqm time_limit compressed kwargs self
      = (Ok relabelled,
         log [EvToFile compressed true; EvSampleDqm f {["time_limit" := time_limit]}] self)) /\
  (forall t self',
      LeapHybridDQMSampler.min_time_limit dqm self = (Ok t, self') ->
      solver_sample_dqm (self_solver self') f {["time_limit" := PNum t]} = Ok answer ->
      LeapHybridDQMSampler.sample_dqm dqm PNone compressed kwargs self
      = (Ok relabelled,
         log [EvToFile compressed true; EvSampleDqm f {["time_limit" := PNum t]}] self')) /\
  (idx = seq 0 (length (dqm_variables dqm)) ->
   labels_at (dqm_variables dqm) idx = dqm_variables dqm).
Proof.
  intros Hidx. cbv zeta.
  split; [reflexivity|]. split; [|split].
  - intros time_limit Hne Hs. rewrite sample_dqm_run. cbv zeta.
    destruct time_limit; try contradiction; rewrite Hs, (relabel_by_index _ _ _ Hidx);
      reflexivity.
  - intros t self' Hm Hs. rewrite sample_dqm_run. cbv zeta.
    rewrite Hm, Hs, (relabel_by_index _ _ _ Hidx). reflexivity.
  - intros ->. apply labels_at_all.
Qed.

(** ** Construction and the bound solver *)

Lemma selector_rejected kind (init : constructor) :
  (forall fc (d : dict) v cc config,
      d !! "category" = Some v -> eq_str v "hybrid" = false ->
      exists msg, init fc (SelMapping d) cc config
                  = (Raise (ValueError (Msg msg)), SelMapping d)) ->
  (forall fc (d : dict) v cc config,
      category_accepted d = true ->
      d !! "supported_problem_types__contains" = Some v -> eq_str v kind = false ->
      exists msg, init fc (SelMapping d) cc config
                  = (Raise (ValueError (Msg msg)),
                     SelMapping (snd (setdefault "category" (PStr "hybrid") d)))) ->
  forall fc sel cc config,
    selector_passed kind sel = None ->
    exists msg, fst (init fc sel cc config) = Raise (ValueError (Msg msg)).
Proof.
  intros Hcat Hty fc sel cc config Hp.
  destruct sel as [|d|name]; cbn in Hp; try discriminate.
  destruct (accepts kind d) eqn:Ha; [discriminate|].
  destruct (accepts_false kind d Ha) as [(v & Hd & Hv)|(Hc & v & Hd & Hv)].
  - destruct (Hcat fc d v cc config Hd Hv) as [msg ->]. eauto.
  - destruct (Hty fc d v cc config Hc Hd Hv) as [msg ->]. eauto.
Qed.

Lemma resolve_bound kind fc sel' cc config self :
  fst (resolve kind fc sel' cc config) = Ok self ->
  bound_to kind self /\ self__parameters self = None /\ reads self = 1%nat /\ trace self = [].
Proof.
  unfold resolve. destruct (fc _ _ _) as [c|e]; [|discriminate].
  destruct (client_get_solver c) as [s|e]; [|discriminate].
  destruct (eq_str (get (solver_properties s) "category") "hybrid") eqn:Hc; [|discriminate].
  cbn [negb]. destruct (bool_decide (kind ∈ solver_supported_problem_types s)) eqn:Hk;
    [|discriminate].
  cbn [negb fst]. intros H. injection H as <-.
  apply bool_decide_eq_true_1 in Hk. unfold bound_to. cbn. auto.
Qed.

Lemma init_rejected_bqm fc sel cc config :
  selector_passed "bqm" sel = None ->
  exists msg, fst (LeapHybridSampler.__init__ fc sel cc config) = Raise (ValueError (Msg msg)).
Proof.
  apply (selector_rejected "bqm" LeapHybridSampler.__init__).
  - intros fc' d v cc' config' Hd Hv. eexists.
    exact (init_category_rejected_bqm fc' d v cc' config' Hd Hv).
  - intros fc' d v cc' config' Hc Hd Hv. eexists.
    exact (init_type_rejected_bqm fc' d v cc' config' Hc Hd Hv).
Qed.

Lemma init_rejected_dqm fc sel cc config :
  selector_passed "dqm" sel = None ->
  exists msg, fst (LeapHybridDQMSampler.__init__ fc sel cc config) = Raise (ValueError (Msg msg)).
Proof.
  apply (selector_rejected "dqm" LeapHybridDQMSampler.__init__).
  - intros fc' d v cc' config' Hd Hv. eexists.
    exact (init_category_rejected_dqm fc' d v cc' config' Hd Hv).
  - intros fc' d v cc' config' Hc Hd Hv. eexists.
    exact (init_type_rejected_dqm fc' d v cc' config' Hc Hd Hv).
Qed.

Lemma bound_to_log kind evs self : bound_to kind (log evs self) <-> bound_to kind self.
Proof. reflexivity. Qed.

Lemma bound_to_properties kind self :
  bound_to kind self -> snd (LeapHybridSampler.properties self) = self.
Proof. intros (_ & _ & Hp). rewrite (properties_cached _ _ Hp). reflexivity. Qed.

Lemma bound_to_parameters kind self :
  bound_to kind self -> bound_to kind (snd (LeapHybridSampler.parameters self)).
Proof.
  intros Hb. pose proof Hb as (Hc & Hk & Hp).
  destruct (self__parameters self) as [q|] eqn:Hq.
  - rewrite (parameters_cached _ _ Hq). exact Hb.
  - rewrite (parameters_fresh _ _ Hp Hq).
    destruct (parameters_of _); [|exact Hb]. unfold bound_to. cbn. auto.
Qed.

(** Extra X8.  A sampler that either constructor returns is bound to a
    solver of category hybrid that supports the sampler's problem type, has
    that solver's properties already cached (the constructor's own check
    reads them), has no parameter table yet and has sent nothing; reading
    [properties] or [parameters] and calling [sample] or [sample_dqm] keep
    the sampler bound in this way, whatever they return. *)
Theorem X8_constructed_sampler_stays_bound :
  (forall fc sel cc config self,
      fst (LeapHybridSampler.__init__ fc sel cc config) = Ok self ->
      bound_to "bqm" self /\ self__parameters self = None /\ trace self = []) /\
  (forall fc sel cc config self,
      fst (LeapHybridDQMSampler.__init__ fc sel cc config) = Ok self ->
      bound_to "dqm" self /\ self__parameters self = None /\ trace self = []) /\
  (forall kind self,
      bound_to kind self ->
      bound_to kind (snd (LeapHybridSampler.properties self)) /\
      bound_to kind (snd (LeapHybridSampler.parameters self)) /\
      (forall bqm time_limit kwargs,
          bound_to kind (snd (LeapHybridSampler.sample bqm time_limit kwargs self))) /\
      (forall dqm time_limit compressed kwargs,
          bound_to kind
            (snd (LeapHybridDQMSampler.sample_dqm dqm time_limit compressed kwargs self)))).
Proof.
  split; [|split].
  - intros fc sel cc config self Hok.
    destruct (selector_passed "bqm" sel) as [sel'|] eqn:Hp.
    + rewrite (init_accepted_bqm _ _ _ _ _ Hp) in Hok.
      destruct (resolve_bound _ _ _ _ _ _ Hok) as (Hb & Hq & _ & Ht). auto.
    + destruct (init_rejected_bqm fc sel cc config Hp) as [msg Hr]. congruence.
  - intros fc sel cc config self Hok.
    destruct (selector_passed "dqm" sel) as [sel'|] eqn:Hp.
    + rewrite (init_accepted_dqm _ _ _ _ _ Hp) in Hok.
      destruct (resolve_bound _ _ _ _ _ _ Hok) as (Hb & Hq & _ & Ht). auto.
    + destruct (init_rejected_dqm fc sel cc config Hp) as [msg Hr]. congruence.
  - intros kind self Hb.
    split; [rewrite (bound_to_properties kind self Hb); exact Hb|].
    split; [apply bound_to_parameters; exact Hb|]. split.
    + intros bqm time_limit kwargs.
      destruct (sample_state bqm time_limit kwargs self) as [evs ->].
      rewrite (bound_to_properties kind self Hb). exact Hb.
    + intros dqm time_limit compressed kwargs.
      destruct (sample_dqm_state dqm time_limit compressed kwargs self) as [evs [-> | ->]];
        [exact Hb|].
      rewrite (bound_to_properties kind self Hb). exact Hb.
Qed.

(** Extra X9.  When the filter checks pass, an error raised by
    [Client.from_config], or by [get_solver] of the client it returns, is
    raised by either constructor as it is, and the caller's mapping holds
    the full set of defaults by then. *)
Theorem X9_constructor_propagates_connection_errors fc sel cc config e :
  (forall sel',
      selector_passed "bqm" sel = Some sel' ->
      (fc sel' cc (with_client_default config) = Raise e ->
       LeapHybridSampler.__init__ fc sel cc config = (Raise e, sel')) /\
      (forall c, fc sel' cc (with_client_default config) = Ok c ->
                 client_get_solver c = Raise e ->
                 LeapHybridSampler.__init__ fc sel cc config = (Raise e, sel'))) /\
  (forall sel',
      selector_passed "dqm" sel = Some sel' ->
      (fc sel' cc (with_client_default config) = Raise e ->
       LeapHybridDQMSampler.__init__ fc sel cc config = (Raise e, sel')) /\
      (forall c, fc sel' cc (with_client_default config) = Ok c ->
                 client_get_solver c = Raise e ->
                 LeapHybridDQMSampler.__init__ fc sel cc config = (Raise e, sel'))).
Proof.
  split; intros sel' Hp.
  - rewrite (init_accepted_bqm _ _ _ _ _ Hp). unfold resolve. split.
    + intros ->. reflexivity.
    + intros c -> ->. reflexivity.
  - rewrite (init_accepted_dqm _ _ _ _ _ Hp). unfold resolve. split.
    + intros ->. reflexivity.
    + intros c -> ->. reflexivity.
Qed.

(** ** Bounds and monotonicity of the minimum time limit *)













(** ** Defaults, missing tables and requests *)

(** Extra X12.  When the solver's properties have no entry [parameters],
    reading [parameters] raises [KeyError] for that key; the properties are
    cached by the attempt but no parameter table is, so reading
    [parameters] again raises the same error. *)
Theorem X12_parameters_without_table self props self' :
  self__parameters self = None ->
  LeapHybridSampler.properties self = (Ok props, self') ->
  props !! "parameters" = None ->
  LeapHybridSampler.parameters self = (Raise (KeyError "parameters"), self') /\
  self__parameters self' = None /\
  self__properties self' = Some props /\
  LeapHybridSampler.parameters self' = (Raise (KeyError "parameters"), self').
Proof.
  intros Hq Hp Hk.
  assert (parameters_of props = Raise (KeyError "parameters")) as Hof
      by (unfold parameters_of, getitem; rewrite Hk; reflexivity).
  assert (self__parameters self' = None /\ self__properties self' = Some props) as [Hq' Hp'].
  { unfold LeapHybridSampler.properties in Hp.
    destruct (self__properties self) eqn:E; cbn in Hp; injection Hp as <- <-; cbn; auto. }
  split; [rewrite (parameters_none _ Hq), Hp, Hof; reflexivity|].
  split; [exact Hq'|]. split; [exact Hp'|].
  rewrite (parameters_fresh _ _ Hp' Hq'), Hof. reflexivity.
Qed.

(** Extra X13.  Passing the computed minimum as the time limit is the same
    as passing none: [sample] gives the same result and final state, and
    [sample_dqm] after a call of [min_time_limit] does what [sample_dqm]
    without a time limit does. *)
Theorem X13_explicit_minimum_is_the_default :
  (forall bqm kwargs self m self',
      LeapHybridSampler.sample_min_time_limit (bqm_num_variables bqm) self = (Ok m, self') ->
      LeapHybridSampler.sample bqm (PNum m) kwargs self
      = LeapHybridSampler.sample bqm PNone kwargs self) /\
  (forall dqm compressed kwargs self t self',
      LeapHybridDQMSampler.min_time_limit dqm self = (Ok t, self') ->
      LeapHybridDQMSampler.sample_dqm dqm (PNum t) compressed kwargs self'
      = LeapHybridDQMSampler.sample_dqm dqm PNone compressed kwargs self).
Proof.
  split.
  - intros bqm kwargs self m self' Hm.
    rewrite !(sample_run _ _ _ _ _ _ Hm). reflexivity.
  - intros dqm compressed kwargs self t self' Hm.
    rewrite !sample_dqm_run. cbv zeta. rewrite Hm. reflexivity.
Qed.

(** Extra X14.  For a model without variables and a curve with increasing
    sizes whose first size is positive, the minimum is the first seconds
    entry; [sample] without a time limit takes the labelled path, uploads a
    file view with an empty list of labels and, if the upload succeeds, asks
    for that first entry as the time limit. *)
Theorem X14_empty_bqm self props x0 y0 rest bqm kwargs :
  self__properties self = Some props ->
  props !! "minimum_time_limit" = Some (curve_val ((x0, y0) :: rest)) ->
  increasing ((x0, y0) :: rest) ->
  (0 < x0)%Q ->
  bqm_variables bqm = [] ->
  let fv := open_FileView bqm 2 false in
  let params := <["time_limit" := PNum y0]> kwargs in
  LeapHybridSampler.sample_min_time_limit (bqm_num_variables bqm) self = (Ok y0, self) /\
  fv_labels fv = Some [] /\
  trace (snd (LeapHybridSampler.sample bqm PNone kwargs self))
  = trace self ++
      EvFileView 2 false :: EvUploadBqm fv ::
      match solver_upload_bqm (self_solver self) fv with
      | Ok problem_id => [EvSampleBqm problem_id params]
      | Raise _ => []
      end.
Proof.
  intros Hp Hc Hinc Hx0 Hvars. cbv zeta.
  assert (bqm_num_variables bqm = 0) as Hn by (unfold bqm_num_variables; rewrite Hvars; reflexivity).
  assert (LeapHybridSampler.sample_min_time_limit (bqm_num_variables bqm) self = (Ok y0, self))
    as Hm.
  { rewrite (sample_min_time_limit_curve self props _ _ Hp Hc) by discriminate.
    rewrite Hn, curve_interp_below; [reflexivity|exact Hinc|exact Hx0]. }
  split; [exact Hm|]. split; [unfold open_FileView; cbn; rewrite Hvars; reflexivity|].
  rewrite (sample_run _ _ _ _ _ _ Hm). cbv zeta. cbn [is_Number negb].
  unfold py_lt. cbn [num_value].
  assert (Qltb y0 y0 = false) as -> by (apply Qltb_false; lra).
  unfold LeapHybridSampler._INTEGER_BQM_SIZE_THRESHOLD. rewrite Hn. cbn [Z.ltb Z.compare].
  apply (submit_trace false).
Qed.

(** Extra X15.  Whatever its arguments and its result, one call of [sample]
    either sends nothing to the solver, or opens one file view and makes one
    upload, followed by at most one sampling request, made only if the
    upload succeeded; the labels are ignored exactly above 10,000 variables,
    and the request carries the caller's keyword arguments with
    [time_limit] set. *)
Theorem X15_sample_makes_at_most_one_request_of_each bqm time_limit kwargs self :
  exists new,
    trace (snd (LeapHybridSampler.sample bqm time_limit kwargs self)) = trace self ++ new /\
    (new = [] \/
     exists large tl,
       let fv := open_FileView bqm 2 large in
       let params := <["time_limit" := tl]> kwargs in
       large = (10000 <? bqm_num_variables bqm) /\
       params !! "time_limit" = Some tl /\
       (forall k, k <> "time_limit"%string -> params !! k = kwargs !! k) /\
       ((exists e, solver_upload_bqm (self_solver self) fv = Raise e /\
                   new = [EvFileView 2 large; EvUploadBqm fv]) \/
        (exists problem_id, solver_upload_bqm (self_solver self) fv = Ok problem_id /\
                   new = [EvFileView 2 large; EvUploadBqm fv;
                          EvSampleBqm problem_id params]))).
Proof.
  destruct (LeapHybridSampler.sample_min_time_limit (bqm_num_variables bqm) self)
    as [[m|e] self'] eqn:Hm.
  - pose proof (sample_min_time_limit_trace _ _ _ _ Hm) as Ht.
    pose proof (sample_min_time_limit_solver _ _ _ _ Hm) as Hs.
    rewrite (sample_run _ _ _ _ _ _ Hm). cbv zeta.
    destruct (negb _); [exists []; cbn; rewrite Ht, app_nil_r; auto|].
    destruct (py_lt _ _); [exists []; cbn; rewrite Ht, app_nil_r; auto|].
    unfold LeapHybridSampler._INTEGER_BQM_SIZE_THRESHOLD.
    set (tl := match time_limit with PNone => PNum m | _ => time_limit end).
    assert (exists large, large = (10000 <? bqm_num_variables bqm)) as [large Hl] by eauto.
    rewrite <- Hl.
    pose proof (submit_trace large bqm (<["time_limit" := tl]> kwargs) self') as Hsub.
    rewrite Ht, Hs in Hsub.
    assert ((if large
             then LeapHybridSampler._sample_large bqm (<["time_limit" := tl]> kwargs) self'
             else LeapHybridSampler._sample bqm (<["time_limit" := tl]> kwargs) self')
            = (if large
               then LeapHybridSampler._sample_large bqm (<["time_limit" := tl]> kwargs)
               else LeapHybridSampler._sample bqm (<["time_limit" := tl]> kwargs)) self') as ->
        by (destruct large; reflexivity).
    eexists. split; [exact Hsub|]. right. exists large, tl.
    cbv zeta. split; [reflexivity|]. split; [apply lookup_insert_eq|].
    split; [intros k Hk; apply lookup_insert_ne; congruence|].
    destruct (solver_upload_bqm _ _) as [problem_id|e]; [right|left]; eauto.
  - exists []. rewrite (sample_raises _ _ _ _ _ _ Hm). cbn [snd].
    rewrite (sample_min_time_limit_trace _ _ _ _ Hm), app_nil_r. auto.
Qed.

(** ** Instances *)

(** Instance of X1: a string as time limit on a solver without a curve: the
    missing curve is reported, not the type of the time limit. *)
Lemma X1_witness :
  LeapHybridSampler.sample (demo_bqm 3) (PStr "soon") ∅
                           (sampler_with bare_properties (demo_sampleset 3))
  = (Raise (KeyError "minimum_time_limit"), sampler_with bare_properties (demo_sampleset 3)).
Proof.
  apply (X1_sample_without_curve (demo_bqm 3) (PStr "soon") ∅ _ bare_properties);
    reflexivity.
Defined.

(** Instance of X2: the docstring models on a solver with an empty curve. *)
Lemma X2_witness :
  (exists msg,
      LeapHybridSampler.sample (demo_bqm 3) (PNum 7) ∅
                               (sampler_with empty_curve_properties (demo_sampleset 3))
      = (Raise (ValueError (Msg msg)),
         sampler_with empty_curve_properties (demo_sampleset 3))) /\
  (exists msg,
      LeapHybridDQMSampler.min_time_limit demo_dqm
                               (sampler_with empty_curve_properties (demo_sampleset 3))
      = (Raise (IndexError (Msg msg)),
         sampler_with empty_curve_properties (demo_sampleset 3))).
Proof.
  destruct (X2_empty_curve (sampler_with empty_curve_properties (demo_sampleset 3))
              empty_curve_properties _ eq_refl eq_refl) as (Hb & Hd & _).
  split; [apply Hb|].
  destruct (Hd demo_dqm ltac:(discriminate)) as (msg & Hm & _).
  exists msg. exact Hm.
Defined.

(** Instance of X3: a discrete model without variables. *)
Lemma X3_witness :
  LeapHybridDQMSampler.sample_dqm empty_dqm PNone false ∅ (demo_self 0)
  = (Raise ZeroDivisionError, demo_self 0).
Proof.
  destruct (X3_dqm_without_variables empty_dqm (demo_self 0) eq_refl) as (_ & Hn).
  apply Hn.
Defined.

(** Instance of X4: a solver that refuses uploads, and one that fails every
    sampling request. *)
Lemma X4_witness :
  LeapHybridSampler.sample (demo_bqm 3) PNone ∅ refusing_self
  = (Raise (SolverError 400),
     log [EvFileView 2 false; EvUploadBqm (open_FileView (demo_bqm 3) 2 false)] refusing_self) /\
  LeapHybridSampler.sample (demo_bqm 3) (PNum 7) ∅ busy_self
  = (Raise (SolverError 503),
     log [EvFileView 2 false; EvUploadBqm (open_FileView (demo_bqm 3) 2 false);
          EvSampleBqm "problem-1" {["time_limit" := PNum 7]}] busy_self).
Proof.
  split.
  - assert (LeapHybridSampler.sample_min_time_limit (bqm_num_variables (demo_bqm 3)) refusing_self
            = (Ok (curve_interp (inject_Z (bqm_num_variables (demo_bqm 3))) docstring_curve),
               refusing_self)) as Hm
        by (apply (sample_min_time_limit_curve _ demo_properties);
            [reflexivity|reflexivity|discriminate]).
    destruct (X4_sample_propagates_solver_errors (demo_bqm 3) PNone ∅ _ _ _ Hm
                (or_introl eq_refl)) as [H _].
    apply (H (SolverError 400)). reflexivity.
  - assert (LeapHybridSampler.sample_min_time_limit (bqm_num_variables (demo_bqm 3)) busy_self
            = (Ok (curve_interp (inject_Z (bqm_num_variables (demo_bqm 3))) docstring_curve),
               busy_self)) as Hm
        by (apply (sample_min_time_limit_curve _ demo_properties);
            [reflexivity|reflexivity|discriminate]).
    destruct (X4_sample_propagates_solver_errors (demo_bqm 3) (PNum 7) ∅ _ _ _ Hm) as [_ H].
    + right. exists 7%Q. split; [reflexivity|vm_compute; discriminate].
    + apply (H "problem-1"%string (SolverError 503)); reflexivity.
Defined.

(** Instance of X5: a solver that fails every sampling request. *)
Lemma X5_witness :
  LeapHybridDQMSampler.sample_dqm demo_dqm (PNum 10) false ∅ busy_self
  = (Raise (SolverError 503),
     log [EvToFile false true;
          EvSampleDqm (to_file demo_dqm false true) {["time_limit" := PNum 10]}] busy_self).
Proof.
  destruct (X5_sample_dqm_propagates_solver_errors demo_dqm false ∅ busy_self (SolverError 503))
    as [H _].
  apply H; [discriminate|reflexivity].
Defined.

Lemma demo_min_time_limit_with ss k :
  LeapHybridSampler.sample_min_time_limit k (sampler_with demo_properties ss)
  = (Ok (curve_interp (inject_Z k) docstring_curve), sampler_with demo_properties ss).
Proof.
  apply (sample_min_time_limit_curve _ demo_properties);
    [reflexivity|reflexivity|discriminate].
Qed.

(** Instance of X6: a model of 10,001 variables and an answer over the
    labels 2, 0, 1. *)
Lemma X6_witness :
  fst (LeapHybridSampler.sample (demo_bqm large_size) PNone ∅
         (sampler_with demo_properties shuffled_sampleset))
  = Ok {| ss_variables := [LInt 3; LInt 1; LInt 2];
          ss_records := ss_records shuffled_sampleset |}.
Proof.
  pose proof (demo_min_time_limit_with shuffled_sampleset
                (bqm_num_variables (demo_bqm large_size))) as Hm.
  destruct (X6_large_path_relabels_by_index (demo_bqm large_size) PNone ∅ _ _ _
              "problem-1"%string [2; 0; 1]%nat (ss_records shuffled_sampleset)
              Hm (or_introl eq_refl)) as [H _].
  - unfold bqm_num_variables, demo_bqm, large_size. cbn [bqm_variables].
    rewrite length_fmap, length_seq. reflexivity.
  - reflexivity.
  - reflexivity.
  - unfold demo_bqm, large_size. cbn [bqm_variables]. rewrite length_fmap, length_seq.
    repeat (apply Forall_cons; split; [lia|]). constructor.
  - rewrite H. reflexivity.
Defined.

(** Instance of X7: the docstring's meal model and an answer over the labels
    2, 0, 1. *)
Lemma X7_witness :
  fst (LeapHybridDQMSampler.sample_dqm demo_dqm PNone true ∅
         (sampler_with demo_properties shuffled_sampleset))
  = Ok {| ss_variables := [LStr "dessert"; LStr "food"; LStr "drink"];
          ss_records := ss_records shuffled_sampleset |}.
Proof.
  destruct (X7_sample_dqm_label_round_trip demo_dqm true ∅
              (sampler_with demo_properties shuffled_sampleset)
              [2; 0; 1]%nat (ss_records shuffled_sampleset)) as (_ & _ & H & _).
  - repeat constructor.
  - rewrite (H 5%Q (sampler_with demo_properties shuffled_sampleset)).
    + reflexivity.
    + vm_compute. reflexivity.
    + reflexivity.
Defined.

(** Instance of X8: the sampler constructed over the demo connection, before
    and after [sample]. *)
Lemma X8_witness :
  bound_to "bqm" (demo_self 3) /\
  bound_to "bqm" (snd (LeapHybridSampler.sample (demo_bqm 3) PNone ∅ (demo_self 3))).
Proof.
  destruct X8_constructed_sampler_stays_bound as (Hinit & _ & Hkeep).
  destruct (Hinit (demo_connection 3) SelNone true ∅ (demo_self 3)) as [Hb _];
    [reflexivity|].
  split; [exact Hb|]. destruct (Hkeep "bqm"%string (demo_self 3) Hb) as (_ & _ & Hs & _).
  apply Hs.
Defined.

(** Instance of X9: a connection that cannot be made. *)
Lemma X9_witness :
  LeapHybridSampler.__init__ no_connection SelNone true ∅
  = (Raise (SolverError 0), SelMapping (filter_defaults "bqm")).
Proof.
  destruct (X9_constructor_propagates_connection_errors no_connection SelNone true ∅
              (SolverError 0)) as [H _].
  destruct (H (SelMapping (filter_defaults "bqm")) eq_refl) as [Hr _].
  apply Hr. reflexivity.
Defined.



(** Instance of X12: a solver whose properties have no parameter table. *)
Lemma X12_witness :
  LeapHybridSampler.parameters (sampler_with bare_properties (demo_sampleset 3))
  = (Raise (KeyError "parameters"), sampler_with bare_properties (demo_sampleset 3)).
Proof.
  destruct (X12_parameters_without_table (sampler_with bare_properties (demo_sampleset 3))
              bare_properties _ eq_refl eq_refl eq_refl) as (H & _).
  exact H.
Defined.

(** Instance of X13: the docstring's meal model, whose minimum is 5. *)
Lemma X13_witness :
  LeapHybridDQMSampler.sample_dqm demo_dqm (PNum 5) false ∅ (demo_self 3)
  = LeapHybridDQMSampler.sample_dqm demo_dqm PNone false ∅ (demo_self 3).
Proof.
  destruct X13_explicit_minimum_is_the_default as [_ H].
  apply (H demo_dqm false ∅ (demo_self 3) 5%Q (demo_self 3)).
  vm_compute. reflexivity.
Defined.

(** Instance of X14: the empty model on the docstring's curve. *)
Lemma X14_witness :
  LeapHybridSampler.sample_min_time_limit (bqm_num_variables (demo_bqm 0)) (demo_self 0)
  = (Ok 0.1%Q, demo_self 0) /\
  trace (snd (LeapHybridSampler.sample (demo_bqm 0) PNone ∅ (demo_self 0)))
  = [EvFileView 2 false; EvUploadBqm (open_FileView (demo_bqm 0) 2 false);
     EvSampleBqm "problem-1" {["time_limit" := PNum 0.1]}].
Proof.
  destruct (X14_empty_bqm (demo_self 0) demo_properties 1%Q 0.1%Q
              [(100, 10.0); (1000, 20.0)]%Q (demo_bqm 0) ∅) as (Hm & _ & Ht).
  - reflexivity.
  - reflexivity.
  - apply docstring_curve_increasing.
  - reflexivity.
  - reflexivity.
  - split; [exact Hm|]. rewrite Ht. reflexivity.
Defined.

(** ** Missing curve and named solvers *)

(** Extra X16.  For a discrete model with at least one variable, when the
    solver's properties have no entry [minimum_time_limit],
    [min_time_limit], and [sample_dqm] without a time limit, raise
    [KeyError] for that key, and nothing is serialised or sent. *)
Theorem X16_sample_dqm_without_curve dqm self props self' :
  dqm_num_variables dqm <> 0 ->
  LeapHybridSampler.properties self = (Ok props, self') ->
  props !! "minimum_time_limit" = None ->
  LeapHybridDQMSampler.min_time_limit dqm self = (Raise (KeyError "minimum_time_limit"), self') /\
  (forall compressed kwargs,
      LeapHybridDQMSampler.sample_dqm dqm PNone compressed kwargs self
      = (Raise (KeyError "minimum_time_limit"), self')) /\
  trace self' = trace self.
Proof.
  intros Hn Hp Hk.
  assert (LeapHybridDQMSampler.min_time_limit dqm self
          = (Raise (KeyError "minimum_time_limit"), self')) as Hm.
  { unfold LeapHybridDQMSampler.min_time_limit.
    rewrite bool_decide_eq_false_2 by exact Hn.
    unfold mbind at 1. unfold M_bind at 1. cbn [mret M_ret].
    change LeapHybridDQMSampler.properties with LeapHybridSampler.properties.
    unfold mbind at 1. unfold M_bind at 1. rewrite Hp.
    unfold mbind, M_bind, lift, getitem. rewrite Hk. reflexivity. }
  split; [exact Hm|]. split.
  - intros compressed kwargs. rewrite sample_dqm_run. cbv zeta. rewrite Hm. reflexivity.
  - pose proof (properties_trace self) as Ht. rewrite Hp in Ht. exact Ht.
Qed.

(** Instance of X16: the docstring's meal model on a solver without a curve. *)
Lemma X16_witness :
  LeapHybridDQMSampler.sample_dqm demo_dqm PNone false ∅
                                  (sampler_with bare_properties (demo_sampleset 3))
  = (Raise (KeyError "minimum_time_limit"), sampler_with bare_properties (demo_sampleset 3)).
Proof.
  destruct (X16_sample_dqm_without_curve demo_dqm
              (sampler_with bare_properties (demo_sampleset 3)) bare_properties _
              ltac:(discriminate) eq_refl eq_refl) as (_ & Hn & _).
  apply Hn.
Defined.

(** Extra X17.  For a solver given by name the filter checks are skipped and
    the name is passed on unchanged; the resolved solver is then checked
    after the connection is made: a category other than hybrid raises
    [ValueError] in both constructors, a hybrid solver that lacks the
    sampler's problem type raises [ValueError] naming that type, and
    otherwise the sampler is returned bound to that client and solver. *)
Theorem X17_named_solver_is_validated name fc cc config c s :
  fc (SelName name) cc (with_client_default config) = Ok c ->
  client_get_solver c = Ok s ->
  (eq_str (get (solver_properties s) "category") "hybrid" = false ->
   LeapHybridSampler.__init__ fc (SelName name) cc config
   = (Raise (ValueError (Msg "selected solver is not a hybrid solver.")), SelName name) /\
   LeapHybridDQMSampler.__init__ fc (SelName name) cc config
   = (Raise (ValueError (Msg "selected solver is not a hybrid solver.")), SelName name)) /\
  (eq_str (get (solver_properties s) "category") "hybrid" = true ->
   ("bqm" ∉ solver_supported_problem_types s ->
    LeapHybridSampler.__init__ fc (SelName name) cc config
    = (Raise (ValueError (Msg "selected solver does not support the 'bqm' problem type.")),
       SelName name)) /\
   ("dqm" ∉ solver_supported_problem_types s ->
    LeapHybridDQMSampler.__init__ fc (SelName name) cc config
    = (Raise (ValueError (Msg "selected solver does not support the 'dqm' problem type.")),
       SelName name)) /\
   ("bqm" ∈ solver_supported_problem_types s ->
    LeapHybridSampler.__init__ fc (SelName name) cc config
    = (Ok (constructed c s), SelName name)) /\
   ("dqm" ∈ solver_supported_problem_types s ->
    LeapHybridDQMSampler.__init__ fc (SelName name) cc config
    = (Ok (constructed c s), SelName name))).
Proof.
  intros Hc Hs.
  rewrite (init_accepted_bqm fc (SelName name) (SelName name) cc config eq_refl).
  rewrite (init_accepted_dqm fc (SelName name) (SelName name) cc config eq_refl).
  unfold resolve. rewrite Hc, Hs. split.
  - intros ->. split; reflexivity.
  - intros ->. cbn [negb]. repeat split.
    + intros H. rewrite bool_decide_eq_false_2 by exact H. reflexivity.
    + intros H. rewrite bool_decide_eq_false_2 by exact H. reflexivity.
    + intros H. rewrite bool_decide_eq_true_2 by exact H. reflexivity.
    + intros H. rewrite bool_decide_eq_true_2 by exact H. reflexivity.
Qed.

(** Instance of X17: a named solver that supports discrete models only. *)
Lemma X17_witness :
  LeapHybridSampler.__init__ dqm_only_connection (SelName "hybrid_v1") true ∅
  = (Raise (ValueError (Msg "selected solver does not support the 'bqm' problem type.")),
     SelName "hybrid_v1") /\
  LeapHybridDQMSampler.__init__ dqm_only_connection (SelName "hybrid_v1") true ∅
  = (Ok (constructed {| client_get_solver := Ok dqm_only_solver |} dqm_only_solver),
     SelName "hybrid_v1").
Proof.
  destruct (X17_named_solver_is_validated "hybrid_v1" dqm_only_connection true ∅
              {| client_get_solver := Ok dqm_only_solver |} dqm_only_solver eq_refl eq_refl)
    as [_ H].
  destruct (H eq_refl) as (Hb & _ & _ & Hd).
  split.
  - apply Hb. cbn [solver_supported_problem_types dqm_only_solver].
    intros Hin. apply list_elem_of_singleton in Hin. discriminate.
  - apply Hd. apply list_elem_of_here.
Defined.
